(** * Desktop Time Tracker: the tracking engine

  A shallow embedding of the four timer-driven components of
  [src/core]: [idle_detector.py], [activity_monitor.py],
  [screenshot.py] and [tracker.py], together with the part of
  [database/db_manager.py] the tracker talks to.

  Conventions.
  - A Python object is a record; a method is a function from the
    object (and the values it reads from its environment: the clock,
    the foreground window, the outcome of an I/O block) to the new
    object and the list of Qt signals it emitted, in emission order.
  - [datetime] values are integers counting microseconds, the
    resolution of Python's [datetime]; [int(x.total_seconds())] is
    truncation towards zero of the microsecond difference.
  - Python [float]s that carry percentages are exact rationals ([Q]).
  - A method that can raise returns [Raise] with the object as it was
    left at the point of the exception. *)

From Stdlib Require Import ZArith QArith Qminmax List String Ascii Bool Lia.
From Stdlib Require Import DecimalString.
Import ListNotations.

Open Scope Z_scope.

(** ** The clock *)

Module Clock.

(** A naive [datetime]: microseconds on the local time line. *)
Definition datetime := Z.

Definition MICROSECONDS : Z := 1000000.

(** [int((a - b).total_seconds())]: [total_seconds] is the microsecond
    count divided by 10^6 and [int] truncates towards zero. *)
Definition int_total_seconds (a b : datetime) : Z :=
  Z.quot (a - b) MICROSECONDS.

(** [(a - b).total_seconds() < n] and [>= n] for an integer [n]. *)
Definition total_seconds_ltb (a b : datetime) (n : Z) : bool :=
  (a - b) <? n * MICROSECONDS.

Definition total_seconds_geb (a b : datetime) (n : Z) : bool :=
  n * MICROSECONDS <=? (a - b).

(** [q] is the number of whole seconds in [d] microseconds, counted
    towards zero: what [int] makes of [total_seconds]. *)
Definition whole_seconds (d q : Z) : Prop :=
  (0 <= d -> q * MICROSECONDS <= d < (q + 1) * MICROSECONDS) /\
  (d <= 0 -> (q - 1) * MICROSECONDS < d <= q * MICROSECONDS).

End Clock.

(** ** idle_detector.py *)

Module IdleDetector.

Inductive Signal : Type :=
| idle_threshold_reached
| activity_resumed.

Definition Signal_eqb (a b : Signal) : bool :=
  match a, b with
  | idle_threshold_reached, idle_threshold_reached => true
  | activity_resumed, activity_resumed => true
  | _, _ => false
  end.

Record t : Type := mk {
  _threshold_seconds : Z;
  _is_enabled : bool;
  _is_idle : bool;
  _was_notified : bool
}.

(** [__init__(threshold_seconds=300)]: the constructor stores the
    threshold as given (only the setter clamps it). *)
Definition init (threshold_seconds : Z) : t :=
  mk threshold_seconds true false false.

Definition set_threshold_seconds (d : t) (value : Z) : t :=
  mk (Z.max 60 value) (_is_enabled d) (_is_idle d) (_was_notified d).

Definition set_is_enabled (d : t) (value : bool) : t :=
  if value
  then mk (_threshold_seconds d) value (_is_idle d) (_was_notified d)
  else mk (_threshold_seconds d) value false false.

Definition on_idle_detected (d : t) (idle_seconds : Z) : t * list Signal :=
  if negb (_is_enabled d) then (d, [])
  else if _threshold_seconds d <=? idle_seconds then
    if negb (_was_notified d)
    then (mk (_threshold_seconds d) (_is_enabled d) true true,
          [idle_threshold_reached])
    else (d, [])
  else
    if _was_notified d && (idle_seconds =? 0)
    then (mk (_threshold_seconds d) (_is_enabled d) false false,
          [activity_resumed])
    else (d, []).

Definition reset (d : t) : t :=
  mk (_threshold_seconds d) (_is_enabled d) false false.

(** The detector driven by a sequence of [idle_detected] deliveries:
    the final object and, per call, the signals that call emitted. *)
Fixpoint run (d : t) (ns : list Z) : t * list (list Signal) :=
  match ns with
  | [] => (d, [])
  | n :: ns' =>
      let '(d1, evs) := on_idle_detected d n in
      let '(d2, tr) := run d1 ns' in
      (d2, evs :: tr)
  end.

Definition count (sg : Signal) (tr : list (list Signal)) : nat :=
  List.length (List.filter (Signal_eqb sg) (List.concat tr)).

(** What a client can do with the detector. *)
Inductive Call : Type :=
| CallSetThreshold (value : Z)
| CallSetEnabled (value : bool)
| CallOnIdle (idle_seconds : Z)
| CallReset.

Definition call (d : t) (c : Call) : t * list Signal :=
  match c with
  | CallSetThreshold value => (set_threshold_seconds d value, [])
  | CallSetEnabled value => (set_is_enabled d value, [])
  | CallOnIdle n => on_idle_detected d n
  | CallReset => (reset d, [])
  end.

(** A list of calls: the final object and every signal emitted. *)
Fixpoint calls (d : t) (cs : list Call) : t * list Signal :=
  match cs with
  | [] => (d, [])
  | c :: cs' =>
      let '(d1, evs) := call d c in
      let '(d2, evs') := calls d1 cs' in
      (d2, evs ++ evs')
  end.

End IdleDetector.

(** ** Python values shared by the components *)

Module Py.

(** [x < y] on floats. *)
Definition Qlt_bool (x y : Q) : bool := negb (Qle_bool y x).

(** [min(a, b)]: the first argument unless the second is strictly
    smaller. *)
Definition min (a b : Q) : Q := if Qlt_bool b a then b else a.

(** [sum(xs)]: left to right from 0. *)
Definition sum (xs : list Q) : Q := fold_left Qplus xs (0 # 1).

(** [len(xs)] as a number. *)
Definition len {A : Type} (xs : list A) : Z := Z.of_nat (List.length xs).

(** [pat in s] on strings. *)
Fixpoint contains (pat s : string) : bool :=
  if String.prefix pat s then true
  else match s with
       | EmptyString => false
       | String _ s' => contains pat s'
       end.

(** [f"{n}"] for an integer that is not negative. *)
Definition str (n : Z) : string := NilZero.string_of_int (Z.to_int n).

(** [f"{n:02d}"]: at least two characters, zeros in front (a minus sign
    counts as a character). *)
Definition format_02d (n : Z) : string :=
  let digits := str n in
  if (String.length digits <? 2)%nat then String "0" digits else digits.

(** The numbers 0 to 99. *)
Definition below_100 : list Z := List.map Z.of_nat (List.seq 0 100).

End Py.

(** ** activity_monitor.py *)

Module ActivityMonitor.

Import Clock.

Inductive Signal : Type :=
| activity_updated (percentage : Q)
| idle_detected (seconds : Z).

(** The listener threads of pynput are not part of the object's
    arithmetic state; their callbacks arrive as [_register_activity]. *)
Record t : Type := mk {
  _sample_interval : Z;
  _is_running : bool;
  _last_activity_time : option datetime;
  _active_seconds_in_interval : Z;
  _interval_start_time : option datetime;
  _continuous_idle_seconds : Z;
  _current_second_active : bool;
  _last_second_check : Z;
  _check_timer_active : bool
}.

Inductive Outcome : Type :=
| Ok (m : t) (evs : list Signal)
| Raise (exn : string) (m : t) (evs : list Signal).

Definition init (sample_interval : Z) : t :=
  mk sample_interval false None 0 None 0 false 0 false.

(** [start]: [now1], [now2] are the two [datetime.now()] readings and
    [second] is [int(time.time())]. *)
Definition start (pynput_available : bool) (m : t)
    (now1 now2 : datetime) (second : Z) : t :=
  if _is_running m || negb pynput_available then m
  else mk (_sample_interval m) true (Some now1) 0 (Some now2) 0 false
          second true.

Definition stop (m : t) : t :=
  if negb (_is_running m) then m
  else mk (_sample_interval m) false (_last_activity_time m)
          (_active_seconds_in_interval m) (_interval_start_time m)
          (_continuous_idle_seconds m) (_current_second_active m)
          (_last_second_check m) false.

Definition reset_interval (m : t) (now : datetime) (second : Z) : t :=
  mk (_sample_interval m) (_is_running m) (_last_activity_time m)
     0 (Some now) (_continuous_idle_seconds m) false second
     (_check_timer_active m).

Definition _register_activity (m : t) (now : datetime) : t :=
  mk (_sample_interval m) (_is_running m) (Some now)
     (_active_seconds_in_interval m) (_interval_start_time m)
     0 true (_last_second_check m) (_check_timer_active m).

(** The four clock readings one timer callback can make, in order. *)
Record Readings : Type := mkReadings {
  current_second : Z;      (* int(time.time()) *)
  now : datetime;          (* datetime.now() of the interval test *)
  reset_now : datetime;    (* datetime.now() inside reset_interval *)
  reset_second : Z         (* int(time.time()) inside reset_interval *)
}.

(** First part of [_on_check_timer]: close the previous second. *)
Definition finalize_second (m : t) (current_second : Z) : t :=
  if _last_second_check m <? current_second then
    let active :=
      if _current_second_active m
      then _active_seconds_in_interval m + 1
      else _active_seconds_in_interval m in
    let idle :=
      if _current_second_active m
      then _continuous_idle_seconds m
      else _continuous_idle_seconds m + 1 in
    mk (_sample_interval m) (_is_running m) (_last_activity_time m)
       active (_interval_start_time m) idle false current_second
       (_check_timer_active m)
  else m.

(** [(active / interval) * 100]; the division raises on 0. *)
Definition percentage (active interval : Z) : Q :=
  (inject_Z active / inject_Z interval) * inject_Z 100.

(** Last part of [_on_check_timer]. *)
Definition emit_idle (m : t) : list Signal :=
  if 0 <? _continuous_idle_seconds m
  then [idle_detected (_continuous_idle_seconds m)]
  else [].

Definition _on_check_timer (m : t) (r : Readings) : Outcome :=
  let m1 := finalize_second m (current_second r) in
  match _interval_start_time m1 with
  | Some t0 =>
      if total_seconds_geb (now r) t0 (_sample_interval m1) then
        if _sample_interval m1 =? 0
        then Raise "ZeroDivisionError" m1 []
        else
          let p := percentage (_active_seconds_in_interval m1)
                              (_sample_interval m1) in
          let m2 := reset_interval m1 (reset_now r) (reset_second r) in
          Ok m2 (activity_updated (Py.min (inject_Z 100) p) :: emit_idle m2)
      else Ok m1 (emit_idle m1)
  | None => Ok m1 (emit_idle m1)
  end.

(** [get_current_activity_percentage]; the elapsed time is a float
    number of seconds. *)
Definition get_current_activity_percentage (m : t) (now : datetime) : Q :=
  match _interval_start_time m with
  | None => 0 # 1
  | Some t0 =>
      if now - t0 <=? 0 then 0 # 1
      else
        let elapsed := (inject_Z (now - t0) / inject_Z MICROSECONDS)%Q in
        Py.min (inject_Z 100)
               ((inject_Z (_active_seconds_in_interval m) / elapsed)
                * inject_Z 100)%Q
  end.

(** The percentage as the specification words it:
    [min(100, active / interval * 100)]. *)
Definition spec_percentage (active interval : Z) : Q :=
  Qmin (100 # 1) (inject_Z active / inject_Z interval * (100 # 1)).

(** A monitor one tick before the end of a 60 s interval that began at
    second 0: 29 active seconds counted, input seen in second 59. *)
Definition example_monitor : t :=
  mk 60 true (Some 59400000) 29 (Some 0) 0 true 59 true.

Definition example_readings : Readings :=
  mkReadings 60 60000123 60000130 60.

(** What the window and the timers do with the monitor. *)
Inductive Call : Type :=
| CallStart (pynput_available : bool) (now1 now2 : datetime) (second : Z)
| CallStop
| CallResetInterval (now : datetime) (second : Z)
| CallActivity (now : datetime)
| CallTick (r : Readings).

(** A list of calls, up to the first that raises: the object and every
    signal emitted so far. *)
Fixpoint calls (m : t) (cs : list Call) : Outcome :=
  match cs with
  | [] => Ok m []
  | c :: cs' =>
      let continue m1 evs :=
        match calls m1 cs' with
        | Ok m2 evs' => Ok m2 (evs ++ evs')
        | Raise exn m2 evs' => Raise exn m2 (evs ++ evs')
        end in
      match c with
      | CallStart av now1 now2 second => continue (start av m now1 now2 second) []
      | CallStop => continue (stop m) []
      | CallResetInterval now second => continue (reset_interval m now second) []
      | CallActivity now => continue (_register_activity m now) []
      | CallTick r =>
          match _on_check_timer m r with
          | Ok m1 evs => continue m1 evs
          | Raise exn m1 evs => Raise exn m1 evs
          end
      end
  end.

(** The values a signal may carry: a percentage from 0 to 100, a
    positive number of idle seconds. *)
Definition in_range (ev : Signal) : Prop :=
  match ev with
  | activity_updated p => (0 <= p /\ p <= 100 # 1)%Q
  | idle_detected n => 0 < n
  end.

End ActivityMonitor.

(** ** screenshot.py *)

Module ScreenshotCapture.

Import Clock.
Open Scope string_scope.

Inductive Signal : Type :=
| screenshot_taken (filepath : string) (activity_percentage : Q)
| capture_error (message : string)
| screenshot_skipped (reason : string).

Definition APP_WINDOW_TITLE : string := "Desktop Time Tracker".
Definition STARTUP_DELAY : Z := 60.
Definition RETRY_DELAY : Z := 120.

(** A repeating [QTimer]: its interval in milliseconds and, while it
    is active, the event-loop time of its next timeout. *)
Record QTimer : Type := mkTimer {
  interval : Z;
  due : option Z
}.

Definition isActive (tm : QTimer) : bool :=
  match due tm with Some _ => true | None => false end.

(** [timer.start()] called at event-loop time [t]. *)
Definition timer_start (tm : QTimer) (t : Z) : QTimer :=
  mkTimer (interval tm) (Some (t + interval tm)).

Definition timer_stop (tm : QTimer) : QTimer :=
  mkTimer (interval tm) None.

(** [timer.setInterval(ms)]: an active timer is restarted. *)
Definition timer_setInterval (tm : QTimer) (ms t : Z) : QTimer :=
  mkTimer ms (match due tm with Some _ => Some (t + ms) | None => None end).

(** The object, with the one-shot timers [QTimer.singleShot] has
    queued for [_on_retry_after_skip] (their due times, oldest first). *)
Record t : Type := mk {
  _screenshots_dir : string;
  _interval_seconds : Z;
  _quality : Z;
  _is_running : bool;
  _current_activity : Q;
  _start_time : option datetime;
  _capture_timer : QTimer;
  single_shots : list Z
}.

Definition init (screenshots_dir : string) (interval_seconds quality : Z) : t :=
  mk screenshots_dir interval_seconds quality false (0 # 1) None
     (mkTimer 0 None) [].

Definition with_timer (s : t) (tm : QTimer) : t :=
  mk (_screenshots_dir s) (_interval_seconds s) (_quality s)
     (_is_running s) (_current_activity s) (_start_time s) tm
     (single_shots s).

Definition with_single_shot (s : t) (at_ : Z) : t :=
  mk (_screenshots_dir s) (_interval_seconds s) (_quality s)
     (_is_running s) (_current_activity s) (_start_time s)
     (_capture_timer s) (single_shots s ++ [at_]).

Definition set_interval_seconds (s : t) (value t_ : Z) : t :=
  let iv := Z.max 60 value in
  mk (_screenshots_dir s) iv (_quality s) (_is_running s)
     (_current_activity s) (_start_time s)
     (if _is_running s
      then timer_setInterval (_capture_timer s) (iv * 1000) t_
      else _capture_timer s)
     (single_shots s).

Definition set_quality (s : t) (value : Z) : t :=
  mk (_screenshots_dir s) (_interval_seconds s)
     (Z.max 1 (Z.min 100 value)) (_is_running s) (_current_activity s)
     (_start_time s) (_capture_timer s) (single_shots s).

Definition set_activity_percentage (s : t) (percentage : Q) : t :=
  mk (_screenshots_dir s) (_interval_seconds s) (_quality s)
     (_is_running s) percentage (_start_time s) (_capture_timer s)
     (single_shots s).

(** [start] at event-loop time [t_], with [now] read from the clock. *)
Definition start (s : t) (now : datetime) (t_ : Z) : t :=
  if _is_running s then s
  else
    mk (_screenshots_dir s) (_interval_seconds s) (_quality s) true
       (_current_activity s) (Some now)
       (timer_start
          (timer_setInterval (_capture_timer s)
                             (_interval_seconds s * 1000) t_) t_)
       (single_shots s).

Definition stop (s : t) : t :=
  if negb (_is_running s) then s
  else
    mk (_screenshots_dir s) (_interval_seconds s) (_quality s) false
       (_current_activity s) (_start_time s)
       (timer_stop (_capture_timer s)) (single_shots s).

(** What one call of [capture_now] reads from outside the object. *)
Record Env : Type := mkEnv {
  MSS_AVAILABLE : bool;
  PIL_AVAILABLE : bool;
  now : datetime;                 (* datetime.now() of the skip test *)
  active_window_title : string;   (* _get_active_window_title() *)
  today : string;                 (* strftime('%Y-%m-%d') *)
  timestamp : string;             (* strftime('%H-%M-%S') *)
  activity_str : string;          (* f"{self._current_activity:.0f}" *)
  io_error : option string        (* str(e) if the try block raises *)
}.

(** [int(self.STARTUP_DELAY - elapsed)]: whole seconds left of the
    start-up delay. *)
Definition remaining (start_ now_ : datetime) : Z :=
  Z.quot (STARTUP_DELAY * MICROSECONDS - (now_ - start_)) MICROSECONDS.

Definition _should_skip_capture (s : t) (e : Env) : option string :=
  let startup :=
    match _start_time s with
    | Some t0 =>
        if total_seconds_ltb (now e) t0 STARTUP_DELAY
        then Some ("startup delay ("
                   ++ Py.str (remaining t0 (now e))
                   ++ "s remaining)")
        else None
    | None => None
    end in
  match startup with
  | Some reason => Some reason
  | None =>
      if Py.contains APP_WINDOW_TITLE (active_window_title e)
      then Some "timer app is active window"
      else None
  end.

(** The path the try block builds. *)
Definition filepath (s : t) (e : Env) : string :=
  let stem := timestamp e ++ "_act" ++ activity_str e in
  _screenshots_dir s ++ "/" ++ today e ++ "/" ++ stem
    ++ (if PIL_AVAILABLE e then ".jpg" else ".png").

(** The try block of [capture_now]: the screenshot is written and
    announced, or the exception is reported. *)
Definition attempt (s : t) (e : Env) : option string * list Signal :=
  match io_error e with
  | None => (Some (filepath s e),
             [screenshot_taken (filepath s e) (_current_activity s)])
  | Some msg => (None, [capture_error msg])
  end.

(** [capture_now]: the returned path and the signals emitted; the
    object is not modified. *)
Definition capture_now (s : t) (e : Env) : option string * list Signal :=
  if negb (MSS_AVAILABLE e)
  then (None, [capture_error "mss library not available"])
  else
    match _should_skip_capture s e with
    | Some skip_reason => (None, [screenshot_skipped skip_reason])
    | None => attempt s e
    end.

(** Slot of the repeating timer, run at event-loop time [t_]. *)
Definition _on_capture_timer (s : t) (e : Env) (t_ : Z) : t * list Signal :=
  let '(result, evs) := capture_now s e in
  match result with
  | None =>
      if _is_running s
      then (with_single_shot
              (with_timer s (timer_stop (_capture_timer s)))
              (t_ + RETRY_DELAY * 1000),
            evs)
      else (s, evs)
  | Some _ => (s, evs)
  end.

(** Slot of the one-shot timer, run at event-loop time [t_]. *)
Definition _on_retry_after_skip (s : t) (e : Env) (t_ : Z) : t * list Signal :=
  if _is_running s
  then let '(_, evs) := capture_now s e in
       (with_timer s (timer_start (_capture_timer s) t_), evs)
  else (s, []).

(** The Qt event loop delivering the two timeouts.  A repeating timer
    that times out is due again one interval later; a one-shot timer
    is removed from the queue when it fires. *)
Inductive Timeout : Type :=
| CaptureTimer
| SingleShot.

Definition deliver (s : t) (which : Timeout) (e : Env)
    : option (t * list Signal) :=
  match which with
  | CaptureTimer =>
      match due (_capture_timer s) with
      | Some d =>
          let s1 := with_timer s (mkTimer (interval (_capture_timer s))
                                          (Some (d + interval (_capture_timer s)))) in
          Some (_on_capture_timer s1 e d)
      | None => None
      end
  | SingleShot =>
      match single_shots s with
      | d :: rest =>
          let s1 := mk (_screenshots_dir s) (_interval_seconds s)
                       (_quality s) (_is_running s) (_current_activity s)
                       (_start_time s) (_capture_timer s) rest in
          Some (_on_retry_after_skip s1 e d)
      | [] => None
      end
  end.

(** Some timer is armed: the scheduler will be called again. *)
Definition armed (s : t) : bool :=
  isActive (_capture_timer s)
  || negb (Nat.eqb (List.length (single_shots s)) 0).

(** A scheduler with a 600 s interval started at time 0. *)
Definition example_scheduler : t :=
  Eval vm_compute in start (init "shots" 600 70) 0 0.

(** The same with a 60 s interval. *)
Definition example_scheduler_60 : t :=
  Eval vm_compute in start (init "shots" 60 70) 0 0.

(** The environment [seconds] after time 0 with the given foreground
    window and I/O outcome, for a scheduler whose current activity is 0
    (printed as "0"). *)
Definition example_env (seconds : Z) (title : string)
    (failure : option string) : Env :=
  mkEnv true true (seconds * MICROSECONDS) title
        "2024-05-01" "10-00-00" "0" failure.

(** The two shapes of a running scheduler that is driven by its timers
    alone: waiting for the interval, or waiting for one retry. *)
Definition waiting_interval (s : t) : Prop :=
  _is_running s = true /\ isActive (_capture_timer s) = true
  /\ single_shots s = [].

Definition waiting_retry (s : t) : Prop :=
  _is_running s = true /\ isActive (_capture_timer s) = false
  /\ exists d, single_shots s = [d].

(** A run of timeouts, as the event loop delivers them; [None] if one
    is named that is not armed.  The signals of all callbacks are
    collected. *)
Fixpoint deliveries (s : t) (ds : list (Timeout * Env))
    : option (t * list Signal) :=
  match ds with
  | [] => Some (s, [])
  | (which, e) :: ds' =>
      match deliver s which e with
      | Some (s1, evs) =>
          match deliveries s1 ds' with
          | Some (s2, evs') => Some (s2, (evs ++ evs')%list)
          | None => None
          end
      | None => None
      end
  end.

(** Everything [capture_now] wants before it writes a screenshot. *)
Definition may_capture (s : t) (e : Env) : bool :=
  MSS_AVAILABLE e
  && match _start_time s with
     | Some t0 => Z.leb (STARTUP_DELAY * MICROSECONDS) (now e - t0)
     | None => true
     end
  && negb (Py.contains APP_WINDOW_TITLE (active_window_title e))
  && match io_error e with None => true | Some _ => false end.

Definition is_taken (ev : Signal) : bool :=
  match ev with
  | screenshot_taken _ _ => true
  | _ => false
  end.


End ScreenshotCapture.

(** ** models.py and db_manager.py: time entries *)

Module Database.

Import Clock.

(** [TimeEntry].  The [created_at] attribute is left out: the tracker
    never reads it and neither INSERT nor UPDATE writes it. *)
Record TimeEntry : Type := mkEntry {
  id : option Z;
  task_id : Z;
  start_time : option datetime;
  end_time : option datetime;
  duration_seconds : Z;
  activity_percentage : Q;
  notes : string;
  is_manual : bool
}.

(** [TimeEntry(task_id=..., start_time=...)] *)
Definition new_entry (task : Z) (start : datetime) : TimeEntry :=
  mkEntry None task (Some start) None 0 (0 # 1) EmptyString false.

Definition with_id (e : TimeEntry) (i : Z) : TimeEntry :=
  mkEntry (Some i) (task_id e) (start_time e) (end_time e)
          (duration_seconds e) (activity_percentage e) (notes e)
          (is_manual e).

(** The [time_entries] table: its rows in rowid order and the largest
    rowid handed out so far (the column is AUTOINCREMENT). *)
Record DatabaseManager : Type := mkDb {
  time_entries : list TimeEntry;
  last_rowid : Z
}.

Definition add_time_entry (db : DatabaseManager) (entry : TimeEntry)
    : DatabaseManager * Z :=
  let entry_id := last_rowid db + 1 in
  (mkDb (time_entries db ++ [with_id entry entry_id]) entry_id, entry_id).

Definition id_matches (row entry : TimeEntry) : bool :=
  match id row, id entry with
  | Some i, Some j => i =? j
  | _, _ => false
  end.

(** UPDATE ... WHERE id = ?: every column of the matching row is
    overwritten; no row matches a NULL id. *)
Definition update_time_entry (db : DatabaseManager) (entry : TimeEntry)
    : DatabaseManager :=
  mkDb (List.map (fun row => if id_matches row entry then entry else row)
                 (time_entries db))
       (last_rowid db).

Definition delete_time_entry (db : DatabaseManager) (entry_id : Z)
    : DatabaseManager :=
  mkDb (List.filter
          (fun row => match id row with
                      | Some i => negb (i =? entry_id)
                      | None => true
                      end)
          (time_entries db))
       (last_rowid db).

Definition get_time_entry (db : DatabaseManager) (entry_id : Z)
    : option TimeEntry :=
  List.find (fun row => match id row with
                        | Some i => i =? entry_id
                        | None => false
                        end)
            (time_entries db).

(** NULL sorts below every value. *)
Definition start_ltb (a b : option datetime) : bool :=
  match a, b with
  | None, Some _ => true
  | Some x, Some y => x <? y
  | _, None => false
  end.

(** SELECT ... WHERE end_time IS NULL ORDER BY start_time DESC LIMIT 1.
    Among rows with the same start time SQL may return any; the model
    returns the one with the lowest rowid. *)
Definition get_active_time_entry (db : DatabaseManager) : option TimeEntry :=
  List.fold_left
    (fun best row =>
       match end_time row with
       | Some _ => best
       | None =>
           match best with
           | None => Some row
           | Some b => if start_ltb (start_time b) (start_time row)
                       then Some row else best
           end
       end)
    (time_entries db) None.

(** Every row carries an id, none larger than the last one handed
    out: what AUTOINCREMENT guarantees of the table. *)
Definition keyed (db : DatabaseManager) : Prop :=
  Forall (fun row => exists i, id row = Some i /\ i <= last_rowid db)
         (time_entries db).

(** No row is open. *)
Definition all_closed (db : DatabaseManager) : Prop :=
  Forall (fun row => end_time row <> None) (time_entries db).

(** [get_active_time_entry] as a fold, from any candidate. *)
Definition pick_open (best : option TimeEntry) (row : TimeEntry)
    : option TimeEntry :=
  match end_time row with
  | Some _ => best
  | None =>
      match best with
      | None => Some row
      | Some b => if start_ltb (start_time b) (start_time row)
                  then Some row else best
      end
  end.

(** The test of WHERE id = ? on a row. *)
Definition has_id (i : Z) (row : TimeEntry) : bool :=
  match id row with
  | Some j => j =? i
  | None => false
  end.

End Database.

(** ** tracker.py *)

Module TimeTracker.

Import Clock.
Import Database.

Inductive TrackerState : Type :=
| STOPPED
| RUNNING
| PAUSED.

Definition TrackerState_eqb (a b : TrackerState) : bool :=
  match a, b with
  | STOPPED, STOPPED | RUNNING, RUNNING | PAUSED, PAUSED => true
  | _, _ => false
  end.

Inductive Signal : Type :=
| state_changed (s : TrackerState)
| time_updated (seconds : Z)
| entry_saved (entry_id : option Z).

Record t : Type := mk {
  db_manager : DatabaseManager;
  _state : TrackerState;
  _current_entry : option TimeEntry;
  _start_time : option datetime;
  _pause_time : option datetime;
  _paused_duration : Z;
  _elapsed_seconds : Z;
  _activity_samples : list Q;
  _timer_active : bool      (* the 1-second QTimer *)
}.

Inductive Outcome (R : Type) : Type :=
| Ok (r : R) (s : t) (evs : list Signal)
| Raise (exn : string) (s : t) (evs : list Signal).

Arguments Ok {R} r s evs.
Arguments Raise {R} exn s evs.

(** The resume step shared by [start] (from PAUSED) and [resume]. *)
Definition resume_from_pause (s : t) (now : datetime) : Outcome bool :=
  match _pause_time s with
  | None => Raise "TypeError" s []
  | Some p =>
      Ok true
         (mk (db_manager s) RUNNING (_current_entry s) (_start_time s)
             None (_paused_duration s + int_total_seconds now p)
             (_elapsed_seconds s) (_activity_samples s) true)
         [state_changed RUNNING]
  end.

Definition _recover_active_entry (s : t) (now : datetime) : Outcome unit :=
  match get_active_time_entry (db_manager s) with
  | Some active_entry =>
      match start_time active_entry with
      | None =>
          Raise "TypeError"
                (mk (db_manager s) (_state s) (Some active_entry) None
                    (_pause_time s) (_paused_duration s)
                    (_elapsed_seconds s) (_activity_samples s)
                    (_timer_active s))
                []
      | Some t0 =>
          let elapsed := int_total_seconds now t0 in
          Ok tt
             (mk (db_manager s) RUNNING (Some active_entry) (Some t0)
                 (_pause_time s) (_paused_duration s) elapsed
                 (_activity_samples s) true)
             [state_changed RUNNING; time_updated elapsed]
      end
  | None => Ok tt s []
  end.

(** [TimeTracker(db_manager)] *)
Definition init (db : DatabaseManager) (now : datetime) : Outcome unit :=
  _recover_active_entry (mk db STOPPED None None None 0 0 [] false) now.

Definition start (s : t) (now : datetime) (task : Z) : Outcome bool :=
  match _state s with
  | RUNNING => Ok false s []
  | PAUSED => resume_from_pause s now
  | STOPPED =>
      let entry := new_entry task now in
      let '(db', entry_id) := add_time_entry (db_manager s) entry in
      Ok true
         (mk db' RUNNING (Some (with_id entry entry_id)) (Some now)
             None 0 0 [] true)
         [state_changed RUNNING; time_updated 0]
  end.

Definition pause (s : t) (now : datetime) : Outcome bool :=
  match _state s with
  | RUNNING =>
      Ok true
         (mk (db_manager s) PAUSED (_current_entry s) (_start_time s)
             (Some now) (_paused_duration s) (_elapsed_seconds s)
             (_activity_samples s) false)
         [state_changed PAUSED]
  | _ => Ok false s []
  end.

Definition resume (s : t) (now : datetime) : Outcome bool :=
  match _state s with
  | PAUSED => resume_from_pause s now
  | _ => Ok false s []
  end.

(** [sum(samples) / len(samples)], or 0.0 for an empty list. *)
Definition avg_activity (samples : list Q) : Q :=
  match samples with
  | [] => 0 # 1
  | _ => (Py.sum samples / inject_Z (Py.len samples))%Q
  end.

Definition stop (s : t) (now : datetime) (notes_ : string)
    : Outcome (option Z) :=
  match _state s with
  | STOPPED => Ok None s []
  | _ =>
      let end_time_ := now in
      let paused :=
        match _pause_time s with
        | Some p => _paused_duration s + int_total_seconds end_time_ p
        | None => _paused_duration s
        end in
      let s1 := mk (db_manager s) (_state s) (_current_entry s)
                   (_start_time s) (_pause_time s) paused
                   (_elapsed_seconds s) (_activity_samples s) false in
      match _start_time s with
      | None => Raise "TypeError" s1 []
      | Some t0 =>
          let total_seconds := int_total_seconds end_time_ t0 in
          let active_seconds := total_seconds - paused in
          match _current_entry s with
          | None => Raise "AttributeError" s1 []
          | Some e =>
              let e' := mkEntry (id e) (task_id e) (start_time e)
                                (Some end_time_)
                                (Z.max 0 active_seconds)
                                (avg_activity (_activity_samples s))
                                notes_ (is_manual e) in
              Ok (id e')
                 (mk (update_time_entry (db_manager s) e') STOPPED None
                     None None 0 0 [] false)
                 [state_changed STOPPED; entry_saved (id e')]
          end
      end
  end.

Definition discard (s : t) : t * list Signal :=
  match _state s with
  | STOPPED => (s, [])
  | _ =>
      let db' :=
        match _current_entry s with
        | Some e =>
            match id e with
            | Some i => if i =? 0 then db_manager s
                        else delete_time_entry (db_manager s) i
            | None => db_manager s
            end
        | None => db_manager s
        end in
      (mk db' STOPPED None None None 0 0 [] false, [state_changed STOPPED])
  end.

Definition add_activity_sample (s : t) (percentage : Q) : t :=
  mk (db_manager s) (_state s) (_current_entry s) (_start_time s)
     (_pause_time s) (_paused_duration s) (_elapsed_seconds s)
     (_activity_samples s ++ [percentage]) (_timer_active s).

Definition _on_timer_tick (s : t) (now : datetime) : t * list Signal :=
  match _start_time s with
  | Some t0 =>
      let elapsed := int_total_seconds now t0 - _paused_duration s in
      (mk (db_manager s) (_state s) (_current_entry s) (_start_time s)
          (_pause_time s) (_paused_duration s) elapsed
          (_activity_samples s) (_timer_active s),
       [time_updated elapsed])
  | None => (s, [])
  end.

(** The shape the object has by construction in each state. *)
Definition consistent (s : t) : Prop :=
  match _state s with
  | STOPPED => True
  | RUNNING =>
      (exists e, _current_entry s = Some e) /\
      (exists t0, _start_time s = Some t0) /\
      _pause_time s = None
  | PAUSED =>
      (exists e, _current_entry s = Some e) /\
      (exists t0, _start_time s = Some t0) /\
      (exists p, _pause_time s = Some p)
  end.

(** The arithmetic mean as the specification words it: the sum of the
    samples over their number. *)
Definition arithmetic_mean (samples : list Q) : Q :=
  (fold_right Qplus (0 # 1) samples
   / inject_Z (Z.of_nat (List.length samples)))%Q.

(** What [stop] adds to the paused duration: the pause still in
    progress, if there is one. *)
Definition open_pause (s : t) (now : datetime) : Z :=
  match _pause_time s with
  | Some p => int_total_seconds now p
  | None => 0
  end.

(** The object after [stop] or [discard]: STOPPED, nothing held. *)
Definition stopped (db : DatabaseManager) : t :=
  mk db STOPPED None None None 0 0 [] false.

(** The calls a client of the object can make. *)
Inductive Call : Type :=
| CallStart (now : datetime) (task : Z)
| CallPause (now : datetime)
| CallResume (now : datetime)
| CallStop (now : datetime) (notes_ : string)
| CallDiscard
| CallAddSample (percentage : Q)
| CallTick (now : datetime).

Definition returned {R : Type} (o : Outcome R) : option t :=
  match o with
  | Ok _ s _ => Some s
  | Raise _ _ _ => None
  end.

(** The object after a call that returned; [None] if it raised. *)
Definition call (s : t) (c : Call) : option t :=
  match c with
  | CallStart now task => returned (start s now task)
  | CallPause now => returned (pause s now)
  | CallResume now => returned (resume s now)
  | CallStop now notes_ => returned (stop s now notes_)
  | CallDiscard => Some (fst (discard s))
  | CallAddSample q => Some (add_activity_sample s q)
  | CallTick now => Some (fst (_on_timer_tick s now))
  end.

(** The objects a program can hold: a constructed tracker, after any
    number of calls that returned. *)
Inductive reachable : t -> Prop :=
| reach_init db now s evs :
    init db now = Ok tt s evs -> reachable s
| reach_call s c s' :
    reachable s -> call s c = Some s' -> reachable s'.

(** Running a list of calls; [None] as soon as one raises. *)
Fixpoint calls (s : t) (cs : list Call) : option t :=
  match cs with
  | [] => Some s
  | c :: cs' =>
      match call s c with
      | Some s' => calls s' cs'
      | None => None
      end
  end.

(** A session on task 7 started at second 0 of an empty database, two
    activity samples (50 and 100), paused at second 10. *)
Definition example_paused : t :=
  Eval vm_compute in
    match calls (stopped (mkDb [] 0))
                [CallStart 0 7; CallAddSample (50 # 1);
                 CallAddSample (100 # 1); CallPause 10000000] with
    | Some s => s
    | None => stopped (mkDb [] 0)
    end.

(** The same session resumed at second 15. *)
Definition example_running : t :=
  Eval vm_compute in
    match call example_paused (CallResume 15000000) with
    | Some s => s
    | None => example_paused
    end.

(** A database holding one open entry of task 3 started at second 5. *)
Definition example_open_db : DatabaseManager :=
  mkDb [mkEntry (Some 1) 3 (Some 5000000) None 0 (0 # 1) EmptyString false] 1.

(** A running session interrupted by pauses: each pair is the time of a
    [pause] and of the [resume] that ends it. *)
Definition pause_resume (ps : list (datetime * datetime)) : list Call :=
  List.flat_map (fun pr => [CallPause (fst pr); CallResume (snd pr)]) ps.

(** Whole seconds the tracker counts for these pauses. *)
Definition paused_seconds (ps : list (datetime * datetime)) : Z :=
  List.fold_right (fun pr acc => int_total_seconds (snd pr) (fst pr) + acc)
                  0 ps.

(** [format_duration]: [divmod] rounds towards minus infinity. *)
Definition format_duration (seconds : Z) : string :=
  let hours := seconds / 3600 in
  let remainder := seconds mod 3600 in
  let minutes := remainder / 60 in
  let secs := remainder mod 60 in
  (Py.format_02d hours ++ ":" ++ Py.format_02d minutes ++ ":"
   ++ Py.format_02d secs)%string.

(** The properties [is_running], [is_paused], [is_stopped] and
    [current_task_id]. *)
Definition is_running (s : t) : bool := TrackerState_eqb (_state s) RUNNING.
Definition is_paused (s : t) : bool := TrackerState_eqb (_state s) PAUSED.
Definition is_stopped (s : t) : bool := TrackerState_eqb (_state s) STOPPED.

Definition current_task_id (s : t) : option Z :=
  option_map task_id (_current_entry s).

(** What every object a program can hold satisfies beyond its shape: the
    1-second timer runs exactly in RUNNING, a STOPPED tracker holds
    nothing, and the current entry is an open entry that carries the
    tracker's start time. *)
Definition tidy (s : t) : Prop :=
  (_timer_active s = true <-> _state s = RUNNING) /\
  (_state s = STOPPED ->
   _current_entry s = None /\ _start_time s = None /\ _pause_time s = None
   /\ _paused_duration s = 0 /\ _elapsed_seconds s = 0) /\
  (forall e, _current_entry s = Some e ->
             start_time e = _start_time s /\ end_time e = None).

(** The object [start] builds on a STOPPED tracker over [db], after the
    pauses [ps] have been resumed. *)
Definition paused_session (db : DatabaseManager) (t0 : datetime) (task : Z)
    (ps : list (datetime * datetime)) : t :=
  let i := last_rowid db + 1 in
  let e := with_id (new_entry task t0) i in
  mk (mkDb (time_entries db ++ [e]) i) RUNNING (Some e) (Some t0) None
     (paused_seconds ps) 0 [] true.


(** The database can refuse: sqlite raises and the tracker lets the
    exception pass.  [uses_database s c] tells whether the call gets as
    far as its database operation ([add_time_entry] in [start],
    [update_time_entry] in [stop], [delete_time_entry] in [discard]). *)
Definition uses_database (s : t) (c : Call) : bool :=
  match c with
  | CallStart _ _ => TrackerState_eqb (_state s) STOPPED
  | CallStop _ _ =>
      negb (TrackerState_eqb (_state s) STOPPED)
      && match _start_time s, _current_entry s with
         | Some _, Some _ => true
         | _, _ => false
         end
  | CallDiscard =>
      negb (TrackerState_eqb (_state s) STOPPED)
      && match _current_entry s with
         | Some e => match id e with
                     | Some i => negb (i =? 0)
                     | None => false
                     end
         | None => false
         end
  | _ => false
  end.

(** The object as the database's exception leaves it: the assignments
    made before the database operation stand, those after it are not
    made, and the table is as it was. *)
Definition interrupted (s : t) (c : Call) : t :=
  match c with
  | CallStart now task =>
      mk (db_manager s) (_state s) (Some (new_entry task now)) (Some now)
         None 0 0 [] (_timer_active s)
  | CallStop now notes_ =>
      match _start_time s, _current_entry s with
      | Some t0, Some e =>
          let paused :=
            match _pause_time s with
            | Some p => _paused_duration s + int_total_seconds now p
            | None => _paused_duration s
            end in
          mk (db_manager s) (_state s)
             (Some (mkEntry (id e) (task_id e) (start_time e) (Some now)
                            (Z.max 0 (int_total_seconds now t0 - paused))
                            (avg_activity (_activity_samples s))
                            notes_ (is_manual e)))
             (_start_time s) (_pause_time s) paused (_elapsed_seconds s)
             (_activity_samples s) false
      | _, _ => s
      end
  | CallDiscard =>
      mk (db_manager s) (_state s) (_current_entry s) (_start_time s)
         (_pause_time s) (_paused_duration s) (_elapsed_seconds s)
         (_activity_samples s) false
  | _ => s
  end.

(** How a call can end: it returns, the database's exception passes
    through it, or the tracker's own code raises (a [None] used as a
    time or as an entry). *)
Inductive Attempt : Type :=
| Returned (s : t)
| DatabaseError (s : t)
| Raised.

(** A call when the database answers ([db_ok]) or refuses. *)
Definition attempt_call (db_ok : bool) (s : t) (c : Call) : Attempt :=
  if negb db_ok && uses_database s c then DatabaseError (interrupted s c)
  else match call s c with
       | Some s' => Returned s'
       | None => Raised
       end.

(** The objects a program can hold when the database may refuse any
    operation after the constructor's. *)
Inductive attainable : t -> Prop :=
| attain_init db now s evs :
    init db now = Ok tt s evs -> attainable s
| attain_returned s c db_ok s' :
    attainable s -> attempt_call db_ok s c = Returned s' -> attainable s'
| attain_database_error s c db_ok s' :
    attainable s -> attempt_call db_ok s c = DatabaseError s' ->
    attainable s'.

End TimeTracker.

(** ** ui/main_window.py: the wiring of the engine *)

Module MainWindow.

Import Clock.

(** The window's part in the engine: the four components and the
    [screenshots_enabled] setting it reads from the configuration.
    Widgets, message boxes and the tray icon display and hold nothing the
    engine reads; the monitor is the pynput one. *)
Record t : Type := mk {
  _tracker : TimeTracker.t;
  _activity_monitor : ActivityMonitor.t;
  _screenshot_capture : ScreenshotCapture.t;
  _idle_detector : IdleDetector.t;
  screenshots_enabled : bool
}.

(** The clock readings a handler makes: [datetime.now()] inside the
    tracker, inside [ScreenshotCapture.start] and inside
    [reset_interval], [int(time.time())] there, and the event-loop time
    at which timers are armed. *)
Record Readings : Type := mkReadings {
  tracker_now : datetime;
  capture_start_now : datetime;
  reset_now : datetime;
  reset_second : Z;
  loop_time : Z
}.

Definition with_tracker (w : t) (tr : TimeTracker.t) : t :=
  mk tr (_activity_monitor w) (_screenshot_capture w) (_idle_detector w)
     (screenshots_enabled w).

Definition with_capture (w : t) (sc : ScreenshotCapture.t) : t :=
  mk (_tracker w) (_activity_monitor w) sc (_idle_detector w)
     (screenshots_enabled w).

(** [MainWindow(db_manager, config)]: the components are built, the
    monitor is started.  [None] if the tracker's constructor raises. *)
Definition init (db : Database.DatabaseManager) (screenshots_dir : string)
    (screenshot_interval screenshot_quality idle_threshold : Z)
    (enabled : bool) (now now1 now2 : datetime) (second : Z) : option t :=
  match TimeTracker.init db now with
  | TimeTracker.Ok _ tr _ =>
      Some (mk tr
               (ActivityMonitor.start true (ActivityMonitor.init 60)
                                      now1 now2 second)
               (ScreenshotCapture.init screenshots_dir screenshot_interval
                                       screenshot_quality)
               (IdleDetector.init idle_threshold)
               enabled)
  | TimeTracker.Raise _ _ _ => None
  end.

(** [if self.config.screenshots_enabled: self._screenshot_capture.start()] *)
Definition start_capture (w : t) (r : Readings) : t :=
  if screenshots_enabled w
  then with_capture w (ScreenshotCapture.start (_screenshot_capture w)
                         (capture_start_now r) (loop_time r))
  else w.

Definition stop_capture (w : t) : t :=
  with_capture w (ScreenshotCapture.stop (_screenshot_capture w)).

Definition _on_task_start_from_list (w : t) (task_id : Z) (r : Readings)
    : option t :=
  if TimeTracker.is_running (_tracker w) || TimeTracker.is_paused (_tracker w)
  then Some w
  else
    match TimeTracker.start (_tracker w) (tracker_now r) task_id with
    | TimeTracker.Ok true tr _ =>
        let w1 := start_capture (with_tracker w tr) r in
        Some (mk (_tracker w1)
                 (ActivityMonitor.reset_interval (_activity_monitor w1)
                    (reset_now r) (reset_second r))
                 (_screenshot_capture w1) (_idle_detector w1)
                 (screenshots_enabled w1))
    | TimeTracker.Ok false tr _ => Some (with_tracker w tr)
    | TimeTracker.Raise _ _ _ => None
    end.

(** The resume branch shared by [_on_start] and [_on_start_from_tray]. *)
Definition resume_tracking (w : t) (r : Readings) : option t :=
  match TimeTracker.resume (_tracker w) (tracker_now r) with
  | TimeTracker.Ok _ tr _ => Some (start_capture (with_tracker w tr) r)
  | TimeTracker.Raise _ _ _ => None
  end.

(** [_on_start]: a resume when paused; otherwise only a message box
    (the code after it is not reached). *)
Definition _on_start (w : t) (r : Readings) : option t :=
  if TimeTracker.is_paused (_tracker w) then resume_tracking w r
  else Some w.

Definition _on_start_from_tray (w : t) (r : Readings) : option t :=
  if TimeTracker.is_paused (_tracker w) then resume_tracking w r
  else if TimeTracker.is_stopped (_tracker w) then _on_start w r
  else Some w.

Definition _on_pause (w : t) (r : Readings) : option t :=
  match TimeTracker.pause (_tracker w) (tracker_now r) with
  | TimeTracker.Ok true tr _ => Some (stop_capture (with_tracker w tr))
  | TimeTracker.Ok false tr _ => Some (with_tracker w tr)
  | TimeTracker.Raise _ _ _ => None
  end.

Definition _on_stop (w : t) (r : Readings) : option t :=
  if TimeTracker.is_stopped (_tracker w) then Some w
  else
    let w1 := stop_capture w in
    match TimeTracker.stop (_tracker w1) (tracker_now r) EmptyString with
    | TimeTracker.Ok _ tr _ => Some (with_tracker w1 tr)
    | TimeTracker.Raise _ _ _ => None
    end.

Definition _on_activity_updated (w : t) (percentage : Q) : t :=
  let w1 := with_capture w (ScreenshotCapture.set_activity_percentage
                              (_screenshot_capture w) percentage) in
  if TimeTracker.is_running (_tracker w1)
  then with_tracker w1 (TimeTracker.add_activity_sample (_tracker w1)
                                                        percentage)
  else w1.

Definition _on_idle_threshold (w : t) (r : Readings) : option t :=
  if TimeTracker.is_running (_tracker w) then _on_pause w r else Some w.

(** [_on_settings] once the dialog is accepted, with the values then in
    the configuration. *)
Definition _on_settings (w : t)
    (screenshot_interval screenshot_quality idle_threshold : Z)
    (enabled : bool) (t_ : Z) : t :=
  mk (_tracker w) (_activity_monitor w)
     (ScreenshotCapture.set_quality
        (ScreenshotCapture.set_interval_seconds (_screenshot_capture w)
                                                screenshot_interval t_)
        screenshot_quality)
     (IdleDetector.set_threshold_seconds (_idle_detector w) idle_threshold)
     enabled.

(** The slots of the detector's signals: [idle_threshold_reached] goes to
    [_on_idle_threshold]; nothing is connected to [activity_resumed]. *)
Fixpoint on_detector_signals (w : t) (r : Readings)
    (sigs : list IdleDetector.Signal) : option t :=
  match sigs with
  | [] => Some w
  | IdleDetector.idle_threshold_reached :: rest =>
      match _on_idle_threshold w r with
      | Some w1 => on_detector_signals w1 r rest
      | None => None
      end
  | IdleDetector.activity_resumed :: rest => on_detector_signals w r rest
  end.

(** The slots of the monitor's signals: [activity_updated] goes to
    [_on_activity_updated], [idle_detected] to the detector. *)
Fixpoint on_monitor_signals (w : t) (r : Readings)
    (sigs : list ActivityMonitor.Signal) : option t :=
  match sigs with
  | [] => Some w
  | ActivityMonitor.activity_updated p :: rest =>
      on_monitor_signals (_on_activity_updated w p) r rest
  | ActivityMonitor.idle_detected n :: rest =>
      let '(d, out) := IdleDetector.on_idle_detected (_idle_detector w) n in
      let w1 := mk (_tracker w) (_activity_monitor w) (_screenshot_capture w)
                   d (screenshots_enabled w) in
      match on_detector_signals w1 r out with
      | Some w2 => on_monitor_signals w2 r rest
      | None => None
      end
  end.

(** What happens in the window, from outside or from a timer. *)
Inductive Action : Type :=
| TaskStart (task_id : Z) (r : Readings)
| Start (r : Readings)
| StartFromTray (r : Readings)
| Pause (r : Readings)
| Stop (r : Readings)
| Settings (screenshot_interval screenshot_quality idle_threshold : Z)
           (enabled : bool) (t_ : Z)
| Input (now : datetime)
| MonitorTick (m : ActivityMonitor.Readings) (r : Readings)
| TrackerTick (now : datetime)
| CaptureTimeout (which : ScreenshotCapture.Timeout)
                 (e : ScreenshotCapture.Env).

(** One action; [None] if a handler raises or a timer is named that is
    not armed. *)
Definition step (w : t) (a : Action) : option t :=
  match a with
  | TaskStart task_id r => _on_task_start_from_list w task_id r
  | Start r => _on_start w r
  | StartFromTray r => _on_start_from_tray w r
  | Pause r => _on_pause w r
  | Stop r => _on_stop w r
  | Settings i q th en t_ => Some (_on_settings w i q th en t_)
  | Input now =>
      Some (mk (_tracker w)
               (ActivityMonitor._register_activity (_activity_monitor w) now)
               (_screenshot_capture w) (_idle_detector w)
               (screenshots_enabled w))
  | MonitorTick m r =>
      match ActivityMonitor._on_check_timer (_activity_monitor w) m with
      | ActivityMonitor.Ok mon sigs =>
          on_monitor_signals
            (mk (_tracker w) mon (_screenshot_capture w) (_idle_detector w)
                (screenshots_enabled w))
            r sigs
      | ActivityMonitor.Raise _ _ _ => None
      end
  | TrackerTick now =>
      Some (with_tracker w (fst (TimeTracker._on_timer_tick (_tracker w) now)))
  | CaptureTimeout which e =>
      match ScreenshotCapture.deliver (_screenshot_capture w) which e with
      | Some (sc, _) => Some (with_capture w sc)
      | None => None
      end
  end.

Fixpoint steps (w : t) (acts : list Action) : option t :=
  match acts with
  | [] => Some w
  | a :: acts' =>
      match step w a with
      | Some w1 => steps w1 acts'
      | None => None
      end
  end.

(** Screenshots are scheduled only while the tracker is RUNNING. *)
Definition capture_follows_tracker (w : t) : Prop :=
  ScreenshotCapture._is_running (_screenshot_capture w) = true ->
  TimeTracker._state (_tracker w) = TimeTracker.RUNNING.

(** A window over an empty database, screenshots every 600 s, idle
    threshold 300 s. *)
Definition example_window : t :=
  Eval vm_compute in
    match init (Database.mkDb [] 0) "shots" 600 70 300 true 0 0 0 0 with
    | Some w => w
    | None => mk (TimeTracker.stopped (Database.mkDb [] 0))
                 (ActivityMonitor.init 60)
                 (ScreenshotCapture.init "shots" 600 70)
                 (IdleDetector.init 300) true
    end.

Definition example_times (seconds : Z) : Readings :=
  mkReadings (seconds * MICROSECONDS) (seconds * MICROSECONDS)
             (seconds * MICROSECONDS) seconds (seconds * 1000).

(** What happens without the user: input, and the three timers. *)
Definition background (a : Action) : Prop :=
  match a with
  | Input _ | MonitorTick _ _ | TrackerTick _ | CaptureTimeout _ _ => True
  | _ => False
  end.

Definition with_detector (w : t) (d : IdleDetector.t) : t :=
  mk (_tracker w) (_activity_monitor w) (_screenshot_capture w) d
     (screenshots_enabled w).

(** The example window tracking task 7 since second 1. *)
Definition example_tracking : t :=
  Eval vm_compute in
    match steps example_window [TaskStart 7 (example_times 1)] with
    | Some w => w
    | None => example_window
    end.

(** The same window after 300 idle seconds have paused it, and the user
    has resumed at second 500. *)
Definition example_resumed : t :=
  Eval vm_compute in
    match on_monitor_signals example_tracking (example_times 400)
                             [ActivityMonitor.idle_detected 300] with
    | Some w =>
        match step w (Start (example_times 500)) with
        | Some w' => w'
        | None => w
        end
    | None => example_tracking
    end.

(** Ten idle minutes after that: a tick every minute, none with input. *)
Definition example_idle_ticks : list Action :=
  List.map (fun k =>
              MonitorTick
                (ActivityMonitor.mkReadings
                   (500 + 60 * Z.of_nat k)
                   ((500 + 60 * Z.of_nat k) * MICROSECONDS)
                   ((500 + 60 * Z.of_nat k) * MICROSECONDS)
                   (500 + 60 * Z.of_nat k))
                (example_times (500 + 60 * Z.of_nat k)))
           (List.seq 1 10).

End MainWindow.

(** * Properties *)

(** ** The session state machine *)

Section TrackerProperties.

Import Clock Database TimeTracker.

Lemma fold_left_Qplus (xs : list Q) (a : Q) :
  (fold_left Qplus xs a == a + fold_right Qplus (0 # 1) xs)%Q.
Proof.
  revert a. induction xs as [|x xs IH]; intro a; simpl.
  - ring.
  - rewrite IH. ring.
Qed.

Lemma avg_activity_mean (samples : list Q) :
  samples <> [] -> (avg_activity samples == arithmetic_mean samples)%Q.
Proof.
  intro Hne. destruct samples as [|x xs]; [congruence|].
  unfold avg_activity, arithmetic_mean, Py.sum, Py.len.
  rewrite fold_left_Qplus. apply Qdiv_comp; [ring | reflexivity].
Qed.

Lemma get_after_update (db : DatabaseManager) (e : TimeEntry) (i : Z) :
  id e = Some i ->
  get_time_entry db i <> None ->
  get_time_entry (update_time_entry db e) i = Some e.
Proof.
  intros Hid. unfold get_time_entry, update_time_entry; simpl.
  induction (time_entries db) as [|row rows IH]; simpl; [congruence|].
  assert (Hm : id_matches row e =
               match id row with Some j => j =? i | None => false end).
  { unfold id_matches. rewrite Hid. destruct (id row); reflexivity. }
  rewrite Hm. destruct (id row) as [j|] eqn:Hj.
  - destruct (j =? i) eqn:Hji.
    + intros _. rewrite Hid, Z.eqb_refl. reflexivity.
    + rewrite Hj, Hji. exact IH.
  - rewrite Hj. exact IH.
Qed.

Lemma get_active_is_open_aux (rows : list TimeEntry) (best : option TimeEntry) :
  (forall b, best = Some b -> end_time b = None) ->
  forall e,
    fold_left
      (fun best row =>
         match end_time row with
         | Some _ => best
         | None =>
             match best with
             | None => Some row
             | Some b => if start_ltb (start_time b) (start_time row)
                         then Some row else best
             end
         end) rows best = Some e ->
    end_time e = None /\ (In e rows \/ best = Some e).
Proof.
  revert best. induction rows as [|row rows IH]; simpl; intros best Hb e He.
  - split; [apply Hb; exact He | right; exact He].
  - apply IH in He.
    + destruct He as [Hopen [Hin | Hbest]]; split; auto.
      destruct (end_time row) eqn:Hr; [right; exact Hbest|].
      destruct best as [b|]; [|left; left; congruence].
      destruct (start_ltb (start_time b) (start_time row));
        [left; left; congruence | right; exact Hbest].
    + intros b0 Hb0. destruct (end_time row) eqn:Hr; [auto|].
      destruct best as [b|]; [|congruence].
      destruct (start_ltb (start_time b) (start_time row));
        [congruence | auto].
Qed.

(** The entry the database reports as active is one of its rows and
    has no end time. *)
Lemma get_active_is_open (db : DatabaseManager) (e : TimeEntry) :
  get_active_time_entry db = Some e ->
  In e (time_entries db) /\ end_time e = None.
Proof.
  intro H. apply get_active_is_open_aux in H; [|discriminate].
  destruct H as [Ho [Hin | Hn]]; [auto | discriminate].
Qed.


Lemma consistent_init (db : DatabaseManager) (now : datetime) (s : t)
    (evs : list Signal) :
  init db now = Ok tt s evs -> consistent s.
Proof.
  unfold init, _recover_active_entry; simpl.
  destruct (get_active_time_entry db) as [e|].
  - destruct (start_time e) as [t0|]; [|discriminate].
    intro H; injection H as <- _. unfold consistent; simpl. eauto.
  - intro H; injection H as <- _. exact I.
Qed.

(** Open the shape hypothesis of a RUNNING or PAUSED object. *)
Ltac open_shape H :=
  let e := fresh "e" in let t0 := fresh "t0" in
  let He := fresh "He" in let Ht := fresh "Ht" in let Hp := fresh "Hp" in
  destruct H as [[e He] [[t0 Ht] Hp]].

Lemma consistent_call (s s' : t) (c : Call) :
  consistent s -> call s c = Some s' -> consistent s'.
Proof.
  destruct s as [db st ce stt pt pd el sm tm].
  unfold consistent; simpl. intros Hs Hc.
  destruct c; simpl in Hc;
    unfold start, pause, resume, stop, discard, _on_timer_tick,
           add_activity_sample, resume_from_pause in Hc; simpl in Hc.
  - (* start *)
    destruct st; simpl in Hc.
    + injection Hc as <-; simpl; repeat split; eauto.
    + injection Hc as <-; exact Hs.
    + open_shape Hs. destruct Hp as [p ->].
      injection Hc as <-; simpl; repeat split; eauto.
  - (* pause *)
    destruct st; injection Hc as <-; simpl; try exact Hs.
    open_shape Hs. repeat split; eauto.
  - (* resume *)
    destruct st; simpl in Hc; try (injection Hc as <-; exact Hs).
    open_shape Hs. destruct Hp as [p ->].
    injection Hc as <-; simpl; repeat split; eauto.
  - (* stop *)
    destruct st; simpl in Hc; try (injection Hc as <-; exact I);
      open_shape Hs; subst; simpl in Hc; injection Hc as <-; exact I.
  - (* discard *)
    destruct st; injection Hc as <-; exact I.
  - (* add_activity_sample *)
    injection Hc as <-; exact Hs.
  - (* _on_timer_tick *)
    destruct stt; injection Hc as <-; exact Hs.
Qed.

(** Every object a program can hold has the shape of its state. *)
Lemma reachable_consistent (s : t) : reachable s -> consistent s.
Proof.
  induction 1 as [db now s evs Hi | s c s' _ IH Hc].
  - eapply consistent_init; eassumption.
  - eapply consistent_call; eassumption.
Qed.


Lemma int_total_seconds_bounds (a b : datetime) :
  b <= a ->
  0 <= int_total_seconds a b /\
  int_total_seconds a b * MICROSECONDS <= a - b
    < (int_total_seconds a b + 1) * MICROSECONDS.
Proof.
  intro Hle. unfold int_total_seconds, MICROSECONDS.
  rewrite Z.quot_div_nonneg by lia.
  pose proof (Z.div_mod (a - b) 1000000 ltac:(lia)) as Hd.
  pose proof (Z.mod_pos_bound (a - b) 1000000 ltac:(lia)) as Hm.
  assert (0 <= (a - b) / 1000000) by (apply Z.div_pos; lia).
  lia.
Qed.

(** Pauses and resumes leave a running session running, with the same
    entry, start time and samples, and add up in the paused duration. *)
Lemma pauses_accumulate (ps : list (datetime * datetime)) (s : t) :
  _state s = RUNNING ->
  exists s',
    calls s (pause_resume ps) = Some s' /\
    _state s' = RUNNING /\
    _paused_duration s' = _paused_duration s + paused_seconds ps /\
    _current_entry s' = _current_entry s /\
    _start_time s' = _start_time s /\
    _activity_samples s' = _activity_samples s /\
    db_manager s' = db_manager s /\
    (_pause_time s = None -> _pause_time s' = None).
Proof.
  revert s. induction ps as [|[p r] ps IH]; intros s Hrun.
  - exists s. simpl. rewrite Z.add_0_r. tauto.
  - set (s2 := mk (db_manager s) RUNNING (_current_entry s) (_start_time s)
                  None (_paused_duration s + int_total_seconds r p)
                  (_elapsed_seconds s) (_activity_samples s) true).
    destruct (IH s2 eq_refl) as [s' [Hc [Hst [Hpd [He [Ht [Hsm [Hdb Hp]]]]]]]].
    exists s'. split.
    { simpl. unfold pause. rewrite Hrun. simpl. exact Hc. }
    split; [exact Hst|]. split; [rewrite Hpd; simpl; lia|].
    split; [exact He|]. split; [exact Ht|]. split; [exact Hsm|].
    split; [exact Hdb|]. intros _. apply Hp. reflexivity.
Qed.

(** A whole session: started at [t0], paused and resumed any number of
    times, stopped at [t_end] while running.  The duration saved is the
    whole seconds from start to end less the whole seconds of each
    pause, or 0 if that is negative. *)
Lemma session_duration (db : DatabaseManager) (t0 t_end : datetime)
    (task : Z) (ps : list (datetime * datetime)) (notes_ : string) :
  exists s i e db',
    calls (stopped db) (CallStart t0 task :: pause_resume ps) = Some s /\
    stop s t_end notes_ =
      Ok (Some i) (stopped db') [state_changed STOPPED; entry_saved (Some i)] /\
    get_time_entry db' i = Some e /\
    duration_seconds e =
      Z.max 0 (int_total_seconds t_end t0 - paused_seconds ps) /\
    end_time e = Some t_end /\ task_id e = task.
Proof.
  set (i := last_rowid db + 1).
  set (e0 := with_id (new_entry task t0) i).
  set (s0 := mk (mkDb (time_entries db ++ [e0]) i) RUNNING (Some e0)
                (Some t0) None 0 0 [] true).
  destruct (pauses_accumulate ps s0 eq_refl)
    as [s [Hc [Hst [Hpd [He [Ht [Hsm [Hdb Hp]]]]]]]].
  specialize (Hp eq_refl).
  set (e := mkEntry (Some i) task (Some t0) (Some t_end)
                    (Z.max 0 (int_total_seconds t_end t0 - paused_seconds ps))
                    (0 # 1) notes_ false).
  exists s, i, e, (update_time_entry (db_manager s0) e).
  split; [exact Hc|]. split.
  { unfold stop. rewrite Hst, Hp, Ht, He, Hsm, Hpd, Hdb. reflexivity. }
  split; [|repeat split].
  apply get_after_update; [reflexivity|].
  unfold get_time_entry; simpl. intro Hnone.
  assert (Hin : In e0 (time_entries db ++ [e0]))
    by (apply in_or_app; right; left; reflexivity).
  pose proof (find_none _ _ Hnone e0 Hin) as Hrow.
  simpl in Hrow. rewrite Z.eqb_refl in Hrow. discriminate Hrow.
Qed.

(** [int_total_seconds] is the truncation towards zero of the span in
    seconds, for spans of either sign. *)
Lemma int_total_seconds_whole (a b : datetime) :
  whole_seconds (a - b) (int_total_seconds a b).
Proof.
  unfold whole_seconds, int_total_seconds, MICROSECONDS. split; intro Hd.
  - rewrite Z.quot_div_nonneg by lia.
    pose proof (Z.div_mod (a - b) 1000000 ltac:(lia)) as Hdm.
    pose proof (Z.mod_pos_bound (a - b) 1000000 ltac:(lia)) as Hm.
    lia.
  - replace (a - b) with (- (b - a)) by lia.
    rewrite Z.quot_opp_l by lia.
    rewrite Z.quot_div_nonneg by lia.
    pose proof (Z.div_mod (b - a) 1000000 ltac:(lia)) as Hdm.
    pose proof (Z.mod_pos_bound (b - a) 1000000 ltac:(lia)) as Hm.
    lia.
Qed.

(** C1: from RUNNING or PAUSED, [stop] folds the pause in progress into
    the paused duration, stores in the entry the duration
    [(end - start) - paused] floored at 0 (in whole seconds), the mean
    of the activity samples (0 without samples), the end time and the
    notes, saves the entry, forgets every accumulator, ends STOPPED and
    returns the entry's id.  The seconds from start to end, and those
    of the pause in progress, are the whole seconds of the clock
    difference, counted towards zero. *)
Theorem C1_stop_finalizes (s : t) (now : datetime) (notes_ : string) :
  consistent s ->
  _state s <> STOPPED ->
  exists e t0 e',
    _current_entry s = Some e /\ _start_time s = Some t0 /\
    stop s now notes_ =
      Ok (id e) (stopped (update_time_entry (db_manager s) e'))
         [state_changed STOPPED; entry_saved (id e)] /\
    id e' = id e /\ task_id e' = task_id e /\
    start_time e' = start_time e /\ is_manual e' = is_manual e /\
    end_time e' = Some now /\ notes e' = notes_ /\
    duration_seconds e' =
      Z.max 0 (int_total_seconds now t0
               - (_paused_duration s + open_pause s now)) /\
    whole_seconds (now - t0) (int_total_seconds now t0) /\
    (forall p, _pause_time s = Some p ->
               whole_seconds (now - p) (open_pause s now)) /\
    (_pause_time s = None -> open_pause s now = 0) /\
    (_activity_samples s = [] -> activity_percentage e' = 0 # 1) /\
    (_activity_samples s <> [] ->
     (activity_percentage e' == arithmetic_mean (_activity_samples s))%Q) /\
    (forall i, id e = Some i ->
               get_time_entry (db_manager s) i <> None ->
               get_time_entry (update_time_entry (db_manager s) e') i
               = Some e').
Proof.
  intros Hs Hst.
  assert (Hshape : exists e t0, _current_entry s = Some e
                                /\ _start_time s = Some t0).
  { unfold consistent in Hs. destruct (_state s); [congruence | |];
      destruct Hs as [[e He] [[t0 Ht] _]]; eauto. }
  destruct Hshape as [e [t0 [He Ht]]].
  exists e, t0.
  eexists (mkEntry (id e) (task_id e) (start_time e) (Some now) _ _
                   notes_ (is_manual e)).
  split; [exact He|]. split; [exact Ht|]. split.
  { unfold stop. rewrite He, Ht.
    destruct (_state s); [congruence | reflexivity | reflexivity]. }
  simpl. repeat (split; [reflexivity|]). split.
  { unfold open_pause. destruct (_pause_time s); f_equal; lia. }
  split; [apply int_total_seconds_whole|]. split.
  { intros p Hp. unfold open_pause. rewrite Hp.
    apply int_total_seconds_whole. }
  split; [intro Hp; unfold open_pause; rewrite Hp; reflexivity|].
  split; [intros ->; reflexivity|]. split.
  { apply avg_activity_mean. }
  intros i Hi Hrow. apply get_after_update; assumption.
Qed.

Lemma C1_stop_finalizes_witness :
  exists e t0 e',
    _current_entry example_paused = Some e /\
    _start_time example_paused = Some t0 /\
    stop example_paused 25000000 "done" =
      Ok (id e)
         (stopped (update_time_entry (db_manager example_paused) e'))
         [state_changed STOPPED; entry_saved (id e)] /\
    id e' = id e /\ task_id e' = task_id e /\
    start_time e' = start_time e /\ is_manual e' = is_manual e /\
    end_time e' = Some 25000000 /\ notes e' = "done"%string /\
    duration_seconds e' =
      Z.max 0 (int_total_seconds 25000000 t0
               - (_paused_duration example_paused
                  + open_pause example_paused 25000000)) /\
    whole_seconds (25000000 - t0) (int_total_seconds 25000000 t0) /\
    (forall p, _pause_time example_paused = Some p ->
               whole_seconds (25000000 - p)
                             (open_pause example_paused 25000000)) /\
    (_pause_time example_paused = None ->
     open_pause example_paused 25000000 = 0) /\
    (_activity_samples example_paused = [] ->
     activity_percentage e' = 0 # 1) /\
    (_activity_samples example_paused <> [] ->
     (activity_percentage e'
      == arithmetic_mean (_activity_samples example_paused))%Q) /\
    (forall i, id e = Some i ->
               get_time_entry (db_manager example_paused) i <> None ->
               get_time_entry
                 (update_time_entry (db_manager example_paused) e') i
               = Some e').
Proof.
  apply (C1_stop_finalizes example_paused 25000000 "done").
  - unfold consistent; simpl. repeat split; eexists; reflexivity.
  - simpl. discriminate.
Defined.

(** The session of the example: 25 s of wall clock, 15 s of them
    paused, samples 50 and 100. *)
Example stop_example :
  stop example_paused 25000000 "done"
  = Ok (Some 1)
       (stopped
          (mkDb [mkEntry (Some 1) 7 (Some 0) (Some 25000000) 10
                         (avg_activity [50 # 1; 100 # 1]) "done" false] 1))
       [state_changed STOPPED; entry_saved (Some 1)]
  /\ (avg_activity [50 # 1; 100 # 1] == 75 # 1)%Q.
Proof. split; reflexivity. Qed.


(** C2: [start] while RUNNING, [pause] outside RUNNING, [resume]
    outside PAUSED and [stop] outside RUNNING and PAUSED return failure
    ([False], or [None] for [stop]); the object they return is the
    object they were given, database and timer included, and no signal
    is emitted. *)
Theorem C2_invalid_calls_change_nothing
    (s : t) (now : datetime) (task : Z) (notes_ : string) :
  (_state s = RUNNING -> start s now task = Ok false s []) /\
  (_state s <> RUNNING -> pause s now = Ok false s []) /\
  (_state s <> PAUSED -> resume s now = Ok false s []) /\
  (_state s <> RUNNING -> _state s <> PAUSED ->
   stop s now notes_ = Ok None s []).
Proof.
  unfold start, pause, resume, stop.
  repeat split; intros; destruct (_state s); congruence.
Qed.

Lemma C2_invalid_calls_change_nothing_witness :
  start example_running 20000000 9 = Ok false example_running [] /\
  pause example_paused 20000000 = Ok false example_paused [] /\
  pause (stopped example_open_db) 20000000
    = Ok false (stopped example_open_db) [] /\
  resume example_running 20000000 = Ok false example_running [] /\
  resume (stopped example_open_db) 20000000
    = Ok false (stopped example_open_db) [] /\
  stop (stopped example_open_db) 20000000 "n"
    = Ok None (stopped example_open_db) [].
Proof.
  destruct (C2_invalid_calls_change_nothing example_running 20000000 9 "n")
    as [Rstart [_ [Rresume _]]].
  destruct (C2_invalid_calls_change_nothing example_paused 20000000 9 "n")
    as [_ [Ppause _]].
  destruct (C2_invalid_calls_change_nothing
              (stopped example_open_db) 20000000 9 "n")
    as [_ [Spause [Sresume Sstop]]].
  split; [apply Rstart; reflexivity|].
  split; [apply Ppause; simpl; discriminate|].
  split; [apply Spause; simpl; discriminate|].
  split; [apply Rresume; simpl; discriminate|].
  split; [apply Sresume; simpl; discriminate|].
  apply Sstop; simpl; discriminate.
Defined.

(** C3: constructing the tracker over a database that reports an open
    entry with start time [T] adopts it: the entry becomes the current
    entry, elapsed seconds are the whole seconds of [now - T], the
    paused duration is 0, the state is RUNNING and the 1-second timer
    runs; over a database without an open entry the tracker is STOPPED
    with every accumulator at zero and nothing emitted. *)
Theorem C3_crash_recovery (db : DatabaseManager) (now : datetime) :
  (forall e T,
      get_active_time_entry db = Some e ->
      start_time e = Some T ->
      init db now =
        Ok tt (mk db RUNNING (Some e) (Some T) None 0
                  (int_total_seconds now T) [] true)
           [state_changed RUNNING;
            time_updated (int_total_seconds now T)]
      /\ (T <= now ->
          int_total_seconds now T * MICROSECONDS <= now - T
            < (int_total_seconds now T + 1) * MICROSECONDS)) /\
  (get_active_time_entry db = None ->
   init db now = Ok tt (mk db STOPPED None None None 0 0 [] false) []).
Proof.
  unfold init, _recover_active_entry; simpl. split.
  - intros e T -> ->. split; [reflexivity|].
    intro Hle. apply int_total_seconds_bounds; exact Hle.
  - intros ->. reflexivity.
Qed.

Lemma C3_crash_recovery_witness :
  (init example_open_db 47500000 =
     Ok tt (mk example_open_db RUNNING
               (Some (mkEntry (Some 1) 3 (Some 5000000) None 0 (0 # 1)
                              EmptyString false))
               (Some 5000000) None 0
               (int_total_seconds 47500000 5000000) [] true)
        [state_changed RUNNING;
         time_updated (int_total_seconds 47500000 5000000)]
   /\ (5000000 <= 47500000 ->
       int_total_seconds 47500000 5000000 * MICROSECONDS
         <= 47500000 - 5000000
         < (int_total_seconds 47500000 5000000 + 1) * MICROSECONDS)) /\
  init (mkDb [] 0) 47500000
    = Ok tt (mk (mkDb [] 0) STOPPED None None None 0 0 [] false) [].
Proof.
  split.
  - apply (C3_crash_recovery example_open_db 47500000); reflexivity.
  - apply (C3_crash_recovery (mkDb [] 0) 47500000); reflexivity.
Defined.

(** Recovery 42.5 s after the stored start shows 42 elapsed seconds. *)
Example recovery_example :
  init example_open_db 47500000
  = Ok tt (mk example_open_db RUNNING
              (Some (mkEntry (Some 1) 3 (Some 5000000) None 0 (0 # 1)
                             EmptyString false))
              (Some 5000000) None 0 42 [] true)
       [state_changed RUNNING; time_updated 42].
Proof. reflexivity. Qed.

(** C10: [start] on a PAUSED tracker does not look at its argument: it
    is [resume].  The current entry (with its task id and start time),
    the database, the start time, the elapsed seconds and the samples
    are those of before; the pause is added to the paused duration, the
    pause time is cleared, the state is RUNNING and the timer runs. *)
Theorem C10_start_while_paused_ignores_task
    (s : t) (now p : datetime) (task task' : Z) :
  _state s = PAUSED ->
  _pause_time s = Some p ->
  start s now task' = start s now task /\
  start s now task' = resume s now /\
  start s now task' =
    Ok true
       (mk (db_manager s) RUNNING (_current_entry s) (_start_time s)
           None (_paused_duration s + int_total_seconds now p)
           (_elapsed_seconds s) (_activity_samples s) true)
       [state_changed RUNNING].
Proof.
  intros Hst Hp. unfold start, resume, resume_from_pause.
  rewrite Hst, Hp. repeat split.
Qed.

Lemma C10_start_while_paused_ignores_task_witness :
  start example_paused 15000000 99 = start example_paused 15000000 7 /\
  start example_paused 15000000 99 = resume example_paused 15000000 /\
  start example_paused 15000000 99 =
    Ok true
       (mk (db_manager example_paused) RUNNING
           (_current_entry example_paused) (_start_time example_paused)
           None
           (_paused_duration example_paused
            + int_total_seconds 15000000 10000000)
           (_elapsed_seconds example_paused)
           (_activity_samples example_paused) true)
       [state_changed RUNNING].
Proof.
  apply (C10_start_while_paused_ignores_task
           example_paused 15000000 10000000 7 99); reflexivity.
Defined.

(** The entry of the paused example keeps task 7 when [start] is
    called with task 99. *)
Example start_paused_example :
  match start example_paused 15000000 99 with
  | Ok r s' _ =>
      r = true /\
      option_map task_id (_current_entry s') = Some 7 /\
      db_manager s' = db_manager example_paused /\
      _paused_duration s' = 5
  | Raise _ _ _ => False
  end.
Proof. simpl. repeat split. Qed.

End TrackerProperties.

(** ** The idle detector *)

Section IdleDetectorProperties.

Import IdleDetector.

Lemma run_app (d : t) (xs ys : list Z) :
  run d (xs ++ ys) =
    (fst (run (fst (run d xs)) ys),
     snd (run d xs) ++ snd (run (fst (run d xs)) ys)).
Proof.
  revert d. induction xs as [|x xs IH]; intro d; simpl.
  - destruct (run d ys); reflexivity.
  - destruct (on_idle_detected d x) as [d1 evs].
    rewrite IH. destruct (run d1 xs) as [d2 tr]; simpl.
    destruct (run d2 ys); reflexivity.
Qed.

(** Below the threshold a detector that has not notified is silent. *)
Lemma silent_not_notified (d : t) (n : Z) :
  _was_notified d = false ->
  n < _threshold_seconds d ->
  on_idle_detected d n = (d, []).
Proof.
  intros Hn Hlt. unfold on_idle_detected.
  destruct (_is_enabled d); simpl; [|reflexivity].
  destruct (Z.leb_spec (_threshold_seconds d) n); [lia|].
  rewrite Hn. reflexivity.
Qed.

(** Once it has notified, a detector is silent until it is given 0. *)
Lemma silent_notified (d : t) (n : Z) :
  _was_notified d = true ->
  n <> 0 ->
  on_idle_detected d n = (d, []).
Proof.
  intros Hn Hnz. unfold on_idle_detected.
  destruct (_is_enabled d); simpl; [|reflexivity].
  rewrite Hn; simpl.
  destruct (_threshold_seconds d <=? n); [reflexivity|].
  destruct (Z.eqb_spec n 0); [contradiction | reflexivity].
Qed.

Lemma run_silent (P : Z -> Prop) (d : t) (ns : list Z) :
  (forall n, P n -> on_idle_detected d n = (d, [])) ->
  Forall P ns ->
  run d ns = (d, repeat [] (List.length ns)).
Proof.
  intros Hsilent Hall. induction Hall as [|n ns Hn _ IH]; simpl.
  - reflexivity.
  - rewrite (Hsilent n Hn), IH. reflexivity.
Qed.

Lemma count_app (sg : Signal) (xs ys : list (list Signal)) :
  count sg (xs ++ ys) = (count sg xs + count sg ys)%nat.
Proof.
  unfold count. rewrite concat_app, filter_app, length_app. reflexivity.
Qed.

Lemma count_silent (sg : Signal) (k : nat) : count sg (repeat [] k) = 0%nat.
Proof.
  unfold count. induction k as [|k IH]; simpl; [reflexivity | exact IH].
Qed.

(** C5: over one idle episode -- calls below the threshold, then a
    first call at or above it, then any calls that do not return to 0
    -- an enabled detector that has not yet notified emits
    [idle_threshold_reached] in the first call at or above the
    threshold, and in no other call. *)
Theorem C5_threshold_fires_once (d : t) (pre post : list Z) (n : Z) :
  _is_enabled d = true ->
  _was_notified d = false ->
  Forall (fun k => k < _threshold_seconds d) pre ->
  _threshold_seconds d <= n ->
  Forall (fun k => k <> 0) post ->
  run d (pre ++ n :: post) =
    (mk (_threshold_seconds d) true true true,
     repeat [] (List.length pre)
     ++ [idle_threshold_reached] :: repeat [] (List.length post))
  /\ count idle_threshold_reached (snd (run d (pre ++ n :: post))) = 1%nat
  /\ count activity_resumed (snd (run d (pre ++ n :: post))) = 0%nat.
Proof.
  intros Hen Hnot Hpre Hn Hpost.
  assert (Hrun_pre : run d pre = (d, repeat [] (List.length pre))).
  { apply run_silent with (P := fun k => k < _threshold_seconds d);
      [intros; apply silent_not_notified; assumption | exact Hpre]. }
  assert (Hfire : on_idle_detected d n =
                  (mk (_threshold_seconds d) true true true,
                   [idle_threshold_reached])).
  { unfold on_idle_detected. rewrite Hen, Hnot; simpl.
    destruct (Z.leb_spec (_threshold_seconds d) n); [reflexivity | lia]. }
  assert (Hrun_post :
            run (mk (_threshold_seconds d) true true true) post =
            (mk (_threshold_seconds d) true true true,
             repeat [] (List.length post))).
  { apply run_silent with (P := fun k => k <> 0);
      [intros; apply silent_notified; [reflexivity | assumption]
      | exact Hpost]. }
  assert (Hrun : run d (pre ++ n :: post) =
                 (mk (_threshold_seconds d) true true true,
                  repeat [] (List.length pre)
                  ++ [idle_threshold_reached]
                     :: repeat [] (List.length post))).
  { rewrite run_app, Hrun_pre; simpl. rewrite Hfire, Hrun_post.
    reflexivity. }
  split; [exact Hrun|]. rewrite Hrun; simpl.
  split; rewrite count_app, count_silent;
    change ([idle_threshold_reached] :: repeat [] (List.length post))
      with ([[idle_threshold_reached]] ++ repeat [] (List.length post));
    rewrite count_app, count_silent; reflexivity.
Qed.

Lemma C5_threshold_fires_once_witness :
  run (init 300) ([298; 299] ++ 300 :: [301; 302; 250]) =
    (mk (_threshold_seconds (init 300)) true true true,
     repeat [] (List.length [298; 299])
     ++ [idle_threshold_reached] :: repeat [] (List.length [301; 302; 250]))
  /\ count idle_threshold_reached
       (snd (run (init 300) ([298; 299] ++ 300 :: [301; 302; 250]))) = 1%nat
  /\ count activity_resumed
       (snd (run (init 300) ([298; 299] ++ 300 :: [301; 302; 250]))) = 0%nat.
Proof.
  apply (C5_threshold_fires_once (init 300) [298; 299] [301; 302; 250] 300).
  - reflexivity.
  - reflexivity.
  - repeat constructor.
  - simpl; lia.
  - repeat constructor; discriminate.
Defined.

(** An episode that never reaches the threshold emits nothing. *)
Lemma below_threshold_never_fires (d : t) (ns : list Z) :
  _was_notified d = false ->
  Forall (fun k => k < _threshold_seconds d) ns ->
  run d ns = (d, repeat [] (List.length ns)).
Proof.
  intros Hnot Hall.
  apply run_silent with (P := fun k => k < _threshold_seconds d);
    [intros; apply silent_not_notified; assumption | exact Hall].
Qed.

(** A disabled detector ignores every call. *)
Lemma disabled_is_silent (d : t) (n : Z) :
  _is_enabled d = false -> on_idle_detected d n = (d, []).
Proof. intro H. unfold on_idle_detected. rewrite H. reflexivity. Qed.


(** C6, as amended: for an enabled detector with a positive threshold,
    a call emits [activity_resumed] exactly when the detector has
    notified and the call carries 0, and then clears [is_idle] and
    [notified]; a call with [0 < n < threshold], and a call below the
    threshold on a detector that has not notified, emits nothing and
    changes nothing; a call at or above the threshold on a detector
    that has not notified emits [idle_threshold_reached] and sets both
    flags.  After a notification, over calls that stay below the
    threshold once 0 has been seen, [activity_resumed] is emitted in
    the first call carrying 0 and in no other. *)
Theorem C6_resume_only_at_zero (d : t) (n : Z) (pre post : list Z) :
  _is_enabled d = true ->
  0 < _threshold_seconds d ->
  (In activity_resumed (snd (on_idle_detected d n))
   <-> _was_notified d = true /\ n = 0) /\
  (_was_notified d = true -> n = 0 ->
   on_idle_detected d n =
     (mk (_threshold_seconds d) true false false, [activity_resumed])) /\
  (0 < n < _threshold_seconds d -> on_idle_detected d n = (d, [])) /\
  (_was_notified d = false -> n < _threshold_seconds d ->
   on_idle_detected d n = (d, [])) /\
  (_was_notified d = false -> _threshold_seconds d <= n ->
   on_idle_detected d n =
     (mk (_threshold_seconds d) true true true, [idle_threshold_reached])) /\
  (_was_notified d = true ->
   Forall (fun k => k <> 0) pre ->
   Forall (fun k => k < _threshold_seconds d) post ->
   run d (pre ++ 0 :: post) =
     (mk (_threshold_seconds d) true false false,
      repeat [] (List.length pre)
      ++ [activity_resumed] :: repeat [] (List.length post))
   /\ count activity_resumed (snd (run d (pre ++ 0 :: post))) = 1%nat).
Proof.
  intros Hen Hthr.
  assert (Hzero : _was_notified d = true ->
                  on_idle_detected d 0 =
                  (mk (_threshold_seconds d) true false false,
                   [activity_resumed])).
  { intro Hn. unfold on_idle_detected. rewrite Hen, Hn; simpl.
    destruct (Z.leb_spec (_threshold_seconds d) 0); [lia | reflexivity]. }
  split; [|split; [|split; [|split; [|split]]]].
  - split.
    + unfold on_idle_detected. rewrite Hen; simpl.
      destruct (_threshold_seconds d <=? n).
      * destruct (_was_notified d); simpl;
          [intros [] | intros [H|[]]; discriminate].
      * destruct (_was_notified d); simpl; [|intros []].
        destruct (Z.eqb_spec n 0); simpl; [auto | intros []].
    + intros [Hn ->]. rewrite (Hzero Hn). left; reflexivity.
  - intros Hn ->. exact (Hzero Hn).
  - intros [Hpos Hlt]. destruct (_was_notified d) eqn:Hn.
    + apply silent_notified; [exact Hn | lia].
    + apply silent_not_notified; assumption.
  - apply silent_not_notified.
  - intros Hn Hge. unfold on_idle_detected. rewrite Hen, Hn; simpl.
    destruct (Z.leb_spec (_threshold_seconds d) n); [reflexivity | lia].
  - intros Hn Hpre Hpost.
    assert (Hrun : run d (pre ++ 0 :: post) =
                   (mk (_threshold_seconds d) true false false,
                    repeat [] (List.length pre)
                    ++ [activity_resumed]
                       :: repeat [] (List.length post))).
    { assert (Hrun_pre : run d pre = (d, repeat [] (List.length pre))).
      { apply run_silent with (P := fun k => k <> 0);
          [intros; apply silent_notified; assumption | exact Hpre]. }
      assert (Hrun_post :
                run (mk (_threshold_seconds d) true false false) post =
                (mk (_threshold_seconds d) true false false,
                 repeat [] (List.length post))).
      { apply below_threshold_never_fires; [reflexivity | exact Hpost]. }
      rewrite run_app, Hrun_pre; simpl.
      rewrite (Hzero Hn), Hrun_post. reflexivity. }
    split; [exact Hrun|]. rewrite Hrun; simpl.
    rewrite count_app, count_silent.
    change ([activity_resumed] :: repeat [] (List.length post))
      with ([[activity_resumed]] ++ repeat [] (List.length post)).
    rewrite count_app, count_silent. reflexivity.
Qed.

(** A detector with threshold 300 that notified at 300 idle seconds. *)
Lemma C6_resume_only_at_zero_witness :
  let d := mk 300 true true true in
  run d ([301; 302; 120] ++ 0 :: [0; 5; 299]) =
    (mk 300 true false false,
     repeat [] 3 ++ [activity_resumed] :: repeat [] 3)
  /\ count activity_resumed
       (snd (run d ([301; 302; 120] ++ 0 :: [0; 5; 299]))) = 1%nat.
Proof.
  intro d.
  apply (C6_resume_only_at_zero d 0 [301; 302; 120] [0; 5; 299]).
  - reflexivity.
  - reflexivity.
  - reflexivity.
  - repeat constructor; discriminate.
  - repeat constructor.
Defined.

(** C6 as first written says that any call on a detector that has not
    notified emits nothing and changes nothing.  A fresh detector with
    threshold 300 given 300 idle seconds notifies. *)
Lemma C6_counterexample :
  _is_enabled (init 300) = true /\
  _was_notified (init 300) = false /\
  on_idle_detected (init 300) 300 =
    (mk 300 true true true, [idle_threshold_reached]) /\
  ~ (forall (d : t) (n : Z),
        _is_enabled d = true ->
        _was_notified d = false ->
        on_idle_detected d n = (d, [])).
Proof.
  repeat split. intro H.
  specialize (H (init 300) 300 eq_refl eq_refl). discriminate H.
Qed.

End IdleDetectorProperties.

(** ** The activity sampler *)

Section ActivityMonitorProperties.

Import Clock ActivityMonitor.

Lemma Py_min_Qmin (a b : Q) : (Py.min a b == Qmin a b)%Q.
Proof.
  unfold Py.min, Py.Qlt_bool.
  destruct (Qle_bool a b) eqn:Hle; simpl.
  - apply Qle_bool_iff in Hle. symmetry. apply Q.min_l. exact Hle.
  - symmetry. apply Q.min_r. apply Qlt_le_weak. apply Qnot_le_lt.
    intro H. apply Qle_bool_iff in H. congruence.
Qed.

Lemma percentage_spec (active interval : Z) :
  (Py.min (inject_Z 100) (percentage active interval)
   == spec_percentage active interval)%Q.
Proof. unfold spec_percentage, percentage. apply Py_min_Qmin. Qed.

(** With a positive interval and a count that is not negative the
    emitted value lies between 0 and 100. *)
Lemma spec_percentage_range (active interval : Z) :
  0 <= active -> 0 < interval ->
  (0 <= spec_percentage active interval
   /\ spec_percentage active interval <= 100 # 1)%Q.
Proof.
  intros Ha Hi. unfold spec_percentage. split.
  - apply Q.min_glb; [discriminate|].
    apply Qmult_le_0_compat; [|discriminate].
    apply Qle_shift_div_l.
    + change 0%Q with (inject_Z 0). rewrite <- Zlt_Qlt. exact Hi.
    + rewrite Qmult_0_l. change 0%Q with (inject_Z 0).
      rewrite <- Zle_Qle. exact Ha.
  - apply Q.le_min_l.
Qed.

(** C9: when the tick finds the interval of [I] seconds elapsed, with
    [S] active seconds counted (the second just closed included), it
    emits [activity_updated] with [min(100, S / I * 100)] and starts a
    new interval: no active seconds, interval start at the clock
    reading of the reset; the idle signal follows as on every tick. *)
Theorem C9_interval_percentage (m : t) (r : Readings) (t0 : datetime) :
  _interval_start_time m = Some t0 ->
  _sample_interval m <> 0 ->
  _sample_interval m * MICROSECONDS <= now r - t0 ->
  exists m' p,
    _on_check_timer m r = Ok m' (activity_updated p :: emit_idle m') /\
    (p == spec_percentage
            (_active_seconds_in_interval
               (finalize_second m (current_second r)))
            (_sample_interval m))%Q /\
    _active_seconds_in_interval m' = 0 /\
    _interval_start_time m' = Some (reset_now r) /\
    _current_second_active m' = false /\
    _last_second_check m' = reset_second r /\
    _sample_interval m' = _sample_interval m /\
    _continuous_idle_seconds m' =
      _continuous_idle_seconds (finalize_second m (current_second r)).
Proof.
  intros Hstart Hne Hel.
  set (m1 := finalize_second m (current_second r)).
  assert (Hs1 : _interval_start_time m1 = Some t0).
  { unfold m1, finalize_second.
    destruct (_last_second_check m <? current_second r); exact Hstart. }
  assert (Hi1 : _sample_interval m1 = _sample_interval m).
  { unfold m1, finalize_second.
    destruct (_last_second_check m <? current_second r); reflexivity. }
  exists (reset_interval m1 (reset_now r) (reset_second r)).
  exists (Py.min (inject_Z 100)
                 (percentage (_active_seconds_in_interval m1)
                             (_sample_interval m1))).
  split.
  { unfold _on_check_timer. fold m1. rewrite Hs1.
    unfold total_seconds_geb. rewrite Hi1.
    destruct (Z.leb_spec (_sample_interval m * MICROSECONDS) (now r - t0));
      [|lia].
    destruct (Z.eqb_spec (_sample_interval m) 0); [contradiction|].
    reflexivity. }
  split; [rewrite Hi1; apply percentage_spec|].
  simpl. repeat (split; [reflexivity|]). split; [exact Hi1 | reflexivity].
Qed.

Lemma C9_interval_percentage_witness :
  exists m' p,
    _on_check_timer example_monitor example_readings
      = Ok m' (activity_updated p :: emit_idle m') /\
    (p == spec_percentage
            (_active_seconds_in_interval
               (finalize_second example_monitor
                                (current_second example_readings)))
            (_sample_interval example_monitor))%Q /\
    _active_seconds_in_interval m' = 0 /\
    _interval_start_time m' = Some (reset_now example_readings) /\
    _current_second_active m' = false /\
    _last_second_check m' = reset_second example_readings /\
    _sample_interval m' = _sample_interval example_monitor /\
    _continuous_idle_seconds m' =
      _continuous_idle_seconds
        (finalize_second example_monitor
                         (current_second example_readings)).
Proof.
  apply (C9_interval_percentage example_monitor example_readings 0).
  - reflexivity.
  - simpl; discriminate.
  - vm_compute; discriminate.
Defined.

(** 30 active seconds in a 60 s interval: 50 percent. *)
Example thirty_of_sixty :
  (spec_percentage 30 60 == 50 # 1)%Q /\
  exists p,
    _on_check_timer example_monitor example_readings
      = Ok (mk 60 true (Some 59400000) 0 (Some 60000130) 0 false 60 true)
           [activity_updated p]
    /\ (p == 50 # 1)%Q.
Proof.
  split; [reflexivity|]. eexists; split; reflexivity.
Qed.

(** An interval of 0 seconds makes the tick raise. *)
Example zero_interval_raises :
  _on_check_timer (mk 0 true None 0 (Some 0) 0 false 0 true)
                  (mkReadings 1 1000000 1000001 1)
  = Raise "ZeroDivisionError"
          (mk 0 true None 0 (Some 0) 1 false 1 true) [].
Proof. reflexivity. Qed.

End ActivityMonitorProperties.

(** ** The screenshot scheduler *)

Section ScreenshotProperties.

Import Clock ScreenshotCapture.
Open Scope string_scope.

Lemma prefix_spec (pat s : string) :
  String.prefix pat s = true <-> exists post, s = pat ++ post.
Proof.
  revert s. induction pat as [|c pat IH]; intro s; simpl.
  - split; [intros _; exists s; reflexivity | destruct s; reflexivity].
  - destruct s as [|c' s]; simpl.
    + split; [discriminate | intros [post H]; discriminate].
    + destruct (Ascii.ascii_dec c c') as [->|Hne].
      * rewrite IH. split; intros [post H]; exists post; congruence.
      * split; [discriminate | intros [post H]; congruence].
Qed.

Lemma contains_nil (pat : string) :
  Py.contains pat "" = String.prefix pat "".
Proof. simpl. destruct pat; reflexivity. Qed.

Lemma contains_cons (pat : string) (c : ascii) (s : string) :
  Py.contains pat (String c s) =
    if String.prefix pat (String c s) then true else Py.contains pat s.
Proof. reflexivity. Qed.

(** [Py.contains] is Python's substring test. *)
Lemma contains_spec (pat s : string) :
  Py.contains pat s = true <-> exists pre post, s = pre ++ pat ++ post.
Proof.
  induction s as [|c s IH].
  - rewrite contains_nil, prefix_spec. split.
    + intros [post H]. exists "", post. exact H.
    + intros [pre [post H]]. exists post.
      destruct pre; simpl in H; [exact H | discriminate].
  - rewrite contains_cons.
    destruct (String.prefix pat (String c s)) eqn:Hp.
    + split; [intros _ | reflexivity].
      apply prefix_spec in Hp. destruct Hp as [post Hp].
      exists "", post. exact Hp.
    + rewrite IH. split.
      * intros [pre [post H]]. exists (String c pre), post.
        simpl. congruence.
      * intros [pre [post H]]. destruct pre as [|c' pre]; simpl in H.
        -- assert (String.prefix pat (String c s) = true)
             by (apply prefix_spec; exists post; exact H).
           congruence.
        -- exists pre, post. congruence.
Qed.

Lemma remaining_range (t0 now_ : datetime) :
  (0 <= now_ - t0 < STARTUP_DELAY * MICROSECONDS)%Z ->
  (0 <= remaining t0 now_ <= STARTUP_DELAY)%Z.
Proof.
  unfold remaining, STARTUP_DELAY, MICROSECONDS. intro H.
  rewrite Z.quot_div_nonneg by lia.
  split; [apply Z.div_pos; lia|].
  apply Z.div_le_upper_bound; lia.
Qed.

(** C8, as amended: the skip predicate tests the start-up delay first:
    less than 60 s after [start] the capture is skipped with reason
    ["startup delay (Ns remaining)"], [N] the whole seconds left,
    whatever the foreground window is.  Otherwise, if the title of the
    foreground window contains ["Desktop Time Tracker"], it is skipped
    with reason ["timer app is active window"]; otherwise nothing is
    skipped and [capture_now] attempts the capture. *)
Theorem C8_skip_predicate (s : t) (e : Env) (t0 : datetime) :
  _start_time s = Some t0 ->
  ((now e - t0 < STARTUP_DELAY * MICROSECONDS)%Z ->
   _should_skip_capture s e =
     Some ("startup delay (" ++ Py.str (remaining t0 (now e))
           ++ "s remaining)")) /\
  ((STARTUP_DELAY * MICROSECONDS <= now e - t0)%Z ->
   (Py.contains APP_WINDOW_TITLE (active_window_title e) = true ->
    _should_skip_capture s e = Some "timer app is active window") /\
   (Py.contains APP_WINDOW_TITLE (active_window_title e) = false ->
    _should_skip_capture s e = None /\
    (MSS_AVAILABLE e = true -> capture_now s e = attempt s e))).
Proof.
  intro Hstart. unfold _should_skip_capture, total_seconds_ltb.
  rewrite Hstart. split.
  - intro Hlt.
    destruct (Z.ltb_spec (now e - t0) (STARTUP_DELAY * MICROSECONDS));
      [reflexivity | lia].
  - intro Hge.
    assert (Hskip : _should_skip_capture s e =
                    if Py.contains APP_WINDOW_TITLE (active_window_title e)
                    then Some "timer app is active window" else None).
    { unfold _should_skip_capture, total_seconds_ltb. rewrite Hstart.
      destruct (Z.ltb_spec (now e - t0) (STARTUP_DELAY * MICROSECONDS));
        [lia | reflexivity]. }
    destruct (Z.ltb_spec (now e - t0) (STARTUP_DELAY * MICROSECONDS));
      [lia|].
    split; intro Hc; rewrite Hc; [reflexivity|].
    split; [reflexivity|]. intro Hmss.
    unfold capture_now, attempt. rewrite Hmss, Hskip, Hc. reflexivity.
Qed.

Lemma C8_skip_predicate_witness :
  _should_skip_capture example_scheduler_60 (example_env 30 "Editor" None)
    = Some ("startup delay ("
            ++ Py.str (remaining 0 (now (example_env 30 "Editor" None)))
            ++ "s remaining)")
  /\ _should_skip_capture example_scheduler_60
       (example_env 61 "Desktop Time Tracker" None)
     = Some "timer app is active window"
  /\ _should_skip_capture example_scheduler_60
       (example_env 61 "Editor" None) = None
  /\ capture_now example_scheduler_60 (example_env 61 "Editor" None)
     = attempt example_scheduler_60 (example_env 61 "Editor" None).
Proof.
  destruct (C8_skip_predicate example_scheduler_60
              (example_env 30 "Editor" None) 0 eq_refl) as [Hdelay _].
  destruct (C8_skip_predicate example_scheduler_60
              (example_env 61 "Desktop Time Tracker" None) 0 eq_refl)
    as [_ Hown].
  destruct (C8_skip_predicate example_scheduler_60
              (example_env 61 "Editor" None) 0 eq_refl) as [_ Hother].
  split; [apply Hdelay; reflexivity|].
  split; [apply Hown; [vm_compute; discriminate | reflexivity]|].
  destruct Hother as [_ Hother]; [vm_compute; discriminate|].
  destruct (Hother eq_refl) as [Hnone Hcap].
  split; [exact Hnone | apply Hcap; reflexivity].
Defined.

(** The timer callback 30 s and 61 s after [start], interval 60 s. *)
Example skip_at_30_capture_at_61 :
  capture_now example_scheduler_60 (example_env 30 "Editor" None)
    = (None, [screenshot_skipped "startup delay (30s remaining)"])
  /\ capture_now example_scheduler_60 (example_env 61 "Editor" None)
     = (Some "shots/2024-05-01/10-00-00_act0.jpg",
        [screenshot_taken "shots/2024-05-01/10-00-00_act0.jpg" (0 # 1)]).
Proof. split; reflexivity. Qed.

(** C8 as first written gives the reasons as ["startup delay, Ns
    remaining"] and ["app is active window"]; the reasons the
    predicate returns are other strings. *)
Lemma C8_counterexample :
  _should_skip_capture example_scheduler_60
    (example_env 61 "Desktop Time Tracker" None)
    = Some "timer app is active window"
  /\ _should_skip_capture example_scheduler_60
       (example_env 61 "Desktop Time Tracker" None)
     <> Some "app is active window"
  /\ _should_skip_capture example_scheduler_60
       (example_env 30 "Editor" None)
     = Some "startup delay (30s remaining)"
  /\ _should_skip_capture example_scheduler_60
       (example_env 30 "Editor" None)
     <> Some "startup delay, 30s remaining".
Proof. repeat split; vm_compute; discriminate. Qed.



(** A callback of the repeating timer that gets no screenshot, for
    whatever reason, stops the timer and queues a retry. *)
Lemma no_result_arms_retry (s : t) (e : Env) (t_ : Z) :
  _is_running s = true ->
  fst (capture_now s e) = None ->
  _on_capture_timer s e t_ =
    (with_single_shot (with_timer s (timer_stop (_capture_timer s)))
                      (t_ + RETRY_DELAY * 1000),
     snd (capture_now s e)).
Proof.
  intros Hrun Hnone. unfold _on_capture_timer.
  destruct (capture_now s e) as [result evs]; simpl in *.
  subst result. rewrite Hrun. reflexivity.
Qed.






(** Driven by its timers alone, a scheduler alternates between the two
    shapes: some timer is always armed and at most one retry is
    queued. *)
Lemma deliver_keeps_shape (s s' : t) (which : Timeout) (e : Env)
    (evs : list Signal) :
  waiting_interval s \/ waiting_retry s ->
  deliver s which e = Some (s', evs) ->
  waiting_interval s' \/ waiting_retry s'.
Proof.
  intros Hshape Hd. destruct s as [dir iv q run act st tm shots].
  unfold waiting_interval, waiting_retry in *; simpl in *.
  destruct which; simpl in Hd.
  - destruct Hshape as [[-> [Hact ->]] | [-> [Hact _]]];
      destruct tm as [ms [d|]]; simpl in *; try discriminate.
    unfold _on_capture_timer in Hd.
    destruct (capture_now _ e) as [[path|] evs0]; simpl in Hd;
      injection Hd as <- _; simpl; eauto 6.
  - destruct Hshape as [[-> [Hact ->]] | [-> [Hact [d ->]]]];
      [discriminate|].
    unfold _on_retry_after_skip in Hd; simpl in Hd.
    destruct (capture_now _ e) as [res evs0].
    injection Hd as <- _; simpl. left. auto.
Qed.

Lemma shape_armed (s : t) :
  waiting_interval s \/ waiting_retry s ->
  armed s = true /\ (List.length (single_shots s) <= 1)%nat.
Proof.
  unfold armed.
  intros [[_ [-> ->]] | [_ [_ [d ->]]]]; simpl; split;
    auto using orb_true_r.
Qed.

(** The code on the input of C4: running, start-up delay over, another
    window in front, the screenshot cannot be written.  The callback
    reports the error, and then stops the repeating timer and queues the
    retry, exactly as it does for a skip. *)
Theorem C4_capture_failure_arms_retry :
  capture_now example_scheduler
      (example_env 600 "Editor" (Some "disk full"))
    = (None, [capture_error "disk full"]) /\
  _should_skip_capture example_scheduler
      (example_env 600 "Editor" (Some "disk full")) = None /\
  _on_capture_timer example_scheduler
      (example_env 600 "Editor" (Some "disk full")) 600000
    = (mk "shots" 600 70 true (0 # 1) (Some 0%Z)
          (mkTimer 600000 None) [720000%Z],
       [capture_error "disk full"]) /\
  due (_capture_timer example_scheduler) = Some 600000%Z.
Proof. repeat split. Qed.

(** Every outcome of [capture_now] without a path is treated alike by
    the timer callback: a failure queues the retry a skip queues. *)
Lemma failure_handled_as_skip (s : t) (e : Env) (t_ : Z) (msg : string) :
  _is_running s = true ->
  MSS_AVAILABLE e = true ->
  _should_skip_capture s e = None ->
  io_error e = Some msg ->
  _on_capture_timer s e t_ =
    (with_single_shot (with_timer s (timer_stop (_capture_timer s)))
                      (t_ + RETRY_DELAY * 1000),
     [capture_error msg]).
Proof.
  intros Hrun Hmss Hskip Hio.
  assert (Hcap : capture_now s e = (None, [capture_error msg])).
  { unfold capture_now, attempt. rewrite Hmss, Hskip, Hio. reflexivity. }
  rewrite (no_result_arms_retry s e t_ Hrun); rewrite Hcap; reflexivity.
Qed.

End ScreenshotProperties.

(** * Further properties of the tracking engine *)

(** ** The tracker over whole runs *)

Section TrackerRuns.

Import Clock Database TimeTracker.

Lemma reachable_calls (cs : list Call) (s s' : t) :
  reachable s -> calls s cs = Some s' -> reachable s'.
Proof.
  revert s. induction cs as [|c cs IH]; simpl; intros s Hs Hc.
  - injection Hc as <-. exact Hs.
  - destruct (call s c) as [s1|] eqn:H1; [|discriminate].
    apply (IH s1); [eapply reach_call; eassumption | exact Hc].
Qed.

Lemma tidy_init (db : DatabaseManager) (now : datetime) (s : t)
    (evs : list Signal) :
  init db now = Ok tt s evs -> tidy s.
Proof.
  unfold init, _recover_active_entry; simpl.
  destruct (get_active_time_entry db) as [e|] eqn:Hact.
  - destruct (start_time e) as [t0|] eqn:Ht0; [|discriminate].
    intro H; injection H as <- _. unfold tidy; simpl.
    split; [tauto|]. split; [discriminate|].
    intros e' He'. injection He' as <-.
    split; [exact Ht0 | apply (get_active_is_open db e Hact)].
  - intro H; injection H as <- _. unfold tidy; simpl.
    split; [split; discriminate|]. split; [auto | discriminate].
Qed.

Lemma tidy_call (s s' : t) (c : Call) :
  tidy s -> call s c = Some s' -> tidy s'.
Proof.
  destruct s as [db st ce stt pt pd el sm tm].
  unfold tidy; simpl. intros [Htm [Hstop Hentry]] Hc.
  destruct c; simpl in Hc;
    unfold start, pause, resume, stop, discard, _on_timer_tick,
           add_activity_sample, resume_from_pause in Hc; simpl in Hc.
  - (* start *)
    destruct st; simpl in Hc.
    + injection Hc as <-; simpl.
      split; [tauto|]. split; [discriminate|].
      intros e He. injection He as <-. auto.
    + injection Hc as <-; simpl. auto.
    + destruct pt as [p|]; [|discriminate].
      injection Hc as <-; simpl.
      split; [tauto|]. split; [discriminate | exact Hentry].
  - (* pause *)
    destruct st; injection Hc as <-; simpl; auto.
    split; [split; discriminate|]. split; [discriminate | exact Hentry].
  - (* resume *)
    destruct st; simpl in Hc; try (injection Hc as <-; simpl; auto; fail).
    destruct pt as [p|]; [|discriminate].
    injection Hc as <-; simpl.
    split; [tauto|]. split; [discriminate | exact Hentry].
  - (* stop *)
    assert (Hclean : forall db', tidy (stopped db')).
    { intro db'. unfold tidy, stopped; simpl.
      split; [split; discriminate|]. split; [auto | discriminate]. }
    destruct st; simpl in Hc; try (injection Hc as <-; simpl; auto; fail);
      destruct stt; try discriminate; destruct ce; try discriminate;
      injection Hc as <-; apply Hclean.
  - (* discard *)
    destruct st; injection Hc as <-; simpl; auto;
      (split; [split; discriminate|]; split; [auto | discriminate]).
  - (* add_activity_sample *)
    injection Hc as <-; simpl. auto.
  - (* _on_timer_tick *)
    destruct stt as [t0|]; injection Hc as <-; simpl; auto.
    split; [exact Htm|]. split; [|exact Hentry].
    intro Hst. destruct (Hstop Hst) as [_ [Hnone _]]. discriminate.
Qed.

(** The timer runs exactly while RUNNING, a STOPPED tracker holds
    nothing, and the current entry is open and starts when the tracker
    says: this holds of the constructed tracker and after every call. *)
Theorem reachable_tidy (s : t) : reachable s -> tidy s.
Proof.
  induction 1 as [db now s evs Hi | s c s' _ IH Hc].
  - eapply tidy_init; eassumption.
  - eapply tidy_call; eassumption.
Qed.

Lemma example_paused_reachable : reachable example_paused.
Proof.
  apply (reachable_calls
           [CallStart 0 7; CallAddSample (50 # 1); CallAddSample (100 # 1);
            CallPause 10000000]
           (stopped (mkDb [] 0))).
  - apply (reach_init (mkDb [] 0) 0 _ []). reflexivity.
  - reflexivity.
Defined.

Lemma reachable_tidy_witness : tidy example_paused.
Proof. apply (reachable_tidy example_paused example_paused_reachable). Defined.

Lemma consistent_call_returns (s : t) (c : Call) :
  consistent s -> exists s1, call s c = Some s1.
Proof.
  unfold consistent. intro Hcons.
  destruct c; simpl; eauto;
    unfold start, pause, resume, stop, resume_from_pause;
    destruct (_state s) eqn:Hst; simpl; eauto.
  - destruct Hcons as [_ [_ [p Hp]]]. rewrite Hp; simpl; eauto.
  - destruct Hcons as [_ [_ [p Hp]]]. rewrite Hp; simpl; eauto.
  - destruct Hcons as [[e He] [[t0 Ht] _]]. rewrite He, Ht; simpl; eauto.
  - destruct Hcons as [[e He] [[t0 Ht] _]]. rewrite He, Ht; simpl; eauto.
Qed.

(** With the database answering every operation, any list of calls on a
    tracker a program can hold runs to its end. *)
Lemma reachable_calls_return (s : t) (cs : list Call) :
  reachable s -> exists s', calls s cs = Some s' /\ reachable s'.
Proof.
  revert s. induction cs as [|c cs IH]; intros s Hs.
  - exists s. split; [reflexivity | exact Hs].
  - destruct (consistent_call_returns s c (reachable_consistent s Hs))
      as [s1 H1].
    destruct (IH s1 (reach_call s c s1 Hs H1)) as [s' [Hc Hr]].
    exists s'. simpl. rewrite H1. split; assumption.
Qed.

Lemma interrupted_consistent (s : t) (c : Call) :
  consistent s -> uses_database s c = true -> consistent (interrupted s c).
Proof.
  unfold consistent. intros Hs Hu.
  destruct c; simpl in Hu; try discriminate; simpl.
  - destruct (_state s); try discriminate. exact I.
  - destruct (_start_time s) as [t0|] eqn:Ht;
      [|rewrite andb_false_r in Hu; discriminate].
    destruct (_current_entry s) as [e|] eqn:He;
      [|rewrite andb_false_r in Hu; discriminate].
    simpl. destruct (_state s); [exact I | |];
      destruct Hs as [_ [_ Hp]]; repeat split; eauto.
  - exact Hs.
Qed.

Lemma attainable_consistent (s : t) : attainable s -> consistent s.
Proof.
  induction 1 as [db now s evs Hi
                 | s c db_ok s' _ IH Hc
                 | s c db_ok s' _ IH Hc].
  - eapply consistent_init; eassumption.
  - unfold attempt_call in Hc.
    destruct (negb db_ok && uses_database s c); [discriminate|].
    destruct (call s c) as [s1|] eqn:H1; [|discriminate].
    injection Hc as <-. eapply consistent_call; eassumption.
  - unfold attempt_call in Hc.
    destruct (negb db_ok && uses_database s c) eqn:Hu.
    + injection Hc as <-. apply interrupted_consistent; [exact IH|].
      apply andb_true_iff in Hu. apply Hu.
    + destruct (call s c); discriminate.
Qed.

Lemma reachable_attainable (s : t) : reachable s -> attainable s.
Proof.
  induction 1 as [db now s evs Hi | s c s' _ IH Hc].
  - eapply attain_init; eassumption.
  - apply (attain_returned s c true s' IH).
    unfold attempt_call; simpl. rewrite Hc. reflexivity.
Qed.

(** The only exceptions that leave the tracker are the database's.
    Whether the database answers or refuses, a call on a tracker a
    program can hold -- also one left behind by earlier database
    errors -- either returns or passes the database's exception on; the
    tracker's own code never raises ([pause_time] is set whenever
    [start] or [resume] subtract it, [start_time] and the current entry
    whenever [stop] uses them).  With the database answering the call
    returns; a database error leaves the state and the table as they
    were. *)
Theorem only_database_errors (s : t) (c : Call) (db_ok : bool) :
  attainable s ->
  attempt_call db_ok s c <> Raised /\
  (db_ok = true -> exists s', attempt_call db_ok s c = Returned s'
                              /\ call s c = Some s') /\
  (forall s', attempt_call db_ok s c = Returned s' -> attainable s') /\
  (forall s', attempt_call db_ok s c = DatabaseError s' ->
              db_ok = false /\ uses_database s c = true /\
              attainable s' /\
              _state s' = _state s /\ db_manager s' = db_manager s).
Proof.
  intro Hs.
  destruct (consistent_call_returns s c (attainable_consistent s Hs))
    as [s1 H1].
  split; [|split; [|split]].
  - unfold attempt_call. destruct (negb db_ok && uses_database s c);
      [discriminate | rewrite H1; discriminate].
  - intros ->. exists s1. unfold attempt_call; simpl. rewrite H1. auto.
  - intros s' Hr. eapply attain_returned; eassumption.
  - intros s' Hd.
    assert (Hatt : attainable s')
      by (eapply attain_database_error; eassumption).
    unfold attempt_call in Hd.
    destruct db_ok; simpl in Hd; [rewrite H1 in Hd; discriminate|].
    destruct (uses_database s c) eqn:Hu; [|rewrite H1 in Hd; discriminate].
    injection Hd as <-.
    split; [reflexivity|]. split; [reflexivity|]. split; [exact Hatt|].
    destruct c; simpl in Hu; try discriminate; simpl; auto.
    destruct (_start_time s); [|rewrite andb_false_r in Hu; discriminate].
    destruct (_current_entry s); [|rewrite andb_false_r in Hu; discriminate].
    auto.
Qed.

Lemma only_database_errors_witness :
  attempt_call false example_paused (CallStop 25000000 EmptyString)
    <> Raised /\
  (false = true ->
   exists s', attempt_call false example_paused
                           (CallStop 25000000 EmptyString) = Returned s'
              /\ call example_paused (CallStop 25000000 EmptyString)
                 = Some s') /\
  (forall s', attempt_call false example_paused
                           (CallStop 25000000 EmptyString) = Returned s' ->
              attainable s') /\
  (forall s', attempt_call false example_paused
                           (CallStop 25000000 EmptyString)
              = DatabaseError s' ->
              false = false /\
              uses_database example_paused
                            (CallStop 25000000 EmptyString) = true /\
              attainable s' /\
              _state s' = _state example_paused /\
              db_manager s' = db_manager example_paused).
Proof.
  apply (only_database_errors example_paused
           (CallStop 25000000 EmptyString) false).
  apply reachable_attainable. exact example_paused_reachable.
Defined.

(** [stop] refused by the database on the paused example: the tracker is
    still PAUSED and holds its entry, the pause in progress has been
    added to the paused duration, and the timer is off. *)
Example stop_refused_example :
  attempt_call false example_paused (CallStop 25000000 EmptyString)
  = DatabaseError
      (mk (db_manager example_paused) PAUSED
          (Some (mkEntry (Some 1) 7 (Some 0) (Some 25000000) 10
                         (avg_activity [50 # 1; 100 # 1]) EmptyString false))
          (Some 0) (Some 10000000) 15 0 [50 # 1; 100 # 1] false).
Proof. reflexivity. Qed.

Lemma get_active_fold (db : DatabaseManager) :
  get_active_time_entry db = fold_left pick_open (time_entries db) None.
Proof. reflexivity. Qed.

Lemma pick_open_closed (rows : list TimeEntry) (best : option TimeEntry) :
  Forall (fun row => end_time row <> None) rows ->
  fold_left pick_open rows best = best.
Proof.
  intro Hall. revert best. induction Hall as [|row rows Hrow _ IH]; intro best.
  - reflexivity.
  - simpl. rewrite IH. unfold pick_open.
    destruct (end_time row); [reflexivity | congruence].
Qed.

(** The database reports no active entry exactly when every row has an
    end time. *)
Theorem no_active_entry_iff_all_closed (db : DatabaseManager) :
  get_active_time_entry db = None <-> all_closed db.
Proof.
  rewrite get_active_fold. unfold all_closed. split.
  - assert (Hgen : forall rows best,
               fold_left pick_open rows best = None ->
               best = None /\ Forall (fun row => end_time row <> None) rows).
    { induction rows as [|row rows IH]; simpl; intros best H.
      - split; [exact H | constructor].
      - destruct (IH _ H) as [Hpick Hrest]. unfold pick_open in Hpick.
        destruct (end_time row) eqn:Hend.
        + split; [exact Hpick|]. constructor; [congruence | exact Hrest].
        + destruct best as [b|]; [|discriminate].
          destruct (start_ltb (start_time b) (start_time row)); discriminate. }
    intro H. apply (Hgen _ _ H).
  - intro Hall. apply pick_open_closed. exact Hall.
Qed.

Lemma pauses_result (ps : list (datetime * datetime)) (s : t) :
  _state s = RUNNING ->
  _pause_time s = None ->
  _timer_active s = true ->
  calls s (pause_resume ps) =
    Some (mk (db_manager s) RUNNING (_current_entry s) (_start_time s) None
             (_paused_duration s + paused_seconds ps) (_elapsed_seconds s)
             (_activity_samples s) true).
Proof.
  revert s. induction ps as [|[p r] ps IH]; intros s Hrun Hp Htm.
  - simpl. rewrite Z.add_0_r. destruct s; simpl in *. subst. reflexivity.
  - simpl. unfold pause. rewrite Hrun. simpl.
    rewrite IH by reflexivity. simpl. rewrite Z.add_assoc. reflexivity.
Qed.

(** A session begun on a STOPPED tracker, after any pauses and resumes:
    the calls return this object. *)
Lemma session_runs (db : DatabaseManager) (t0 : datetime) (task : Z)
    (ps : list (datetime * datetime)) :
  calls (stopped db) (CallStart t0 task :: pause_resume ps) =
    Some (paused_session db t0 task ps).
Proof.
  simpl. rewrite pauses_result by reflexivity. reflexivity.
Qed.

Lemma calls_app (cs1 cs2 : list Call) (s s1 : t) :
  calls s cs1 = Some s1 -> calls s (cs1 ++ cs2) = calls s1 cs2.
Proof.
  revert s. induction cs1 as [|c cs1 IH]; simpl; intros s H.
  - injection H as <-. reflexivity.
  - destruct (call s c); [apply IH; exact H | discriminate].
Qed.

(** The tick after any pauses shows the whole seconds since the start
    less the whole seconds of each pause; nothing else changes. *)
Theorem tick_excludes_pauses (db : DatabaseManager) (t0 now : datetime)
    (task : Z) (ps : list (datetime * datetime)) :
  exists s,
    calls (stopped db) (CallStart t0 task :: pause_resume ps) = Some s /\
    _on_timer_tick s now =
      (mk (db_manager s) RUNNING (_current_entry s) (Some t0) None
          (paused_seconds ps)
          (int_total_seconds now t0 - paused_seconds ps) [] true,
       [time_updated (int_total_seconds now t0 - paused_seconds ps)]).
Proof.
  exists (paused_session db t0 task ps).
  split; [apply session_runs | reflexivity].
Qed.

(** Start, then (after any pauses) discard: the table is as it was
    before the session; only the row counter has moved on. *)
Theorem discard_leaves_no_record (db : DatabaseManager) (t0 : datetime)
    (task : Z) (ps : list (datetime * datetime)) :
  keyed db ->
  0 <= last_rowid db ->
  calls (stopped db)
        (CallStart t0 task :: pause_resume ps ++ [CallDiscard])
  = Some (stopped (mkDb (time_entries db) (last_rowid db + 1))).
Proof.
  intros Hkeyed Hpos.
  change (CallStart t0 task :: pause_resume ps ++ [CallDiscard])
    with ((CallStart t0 task :: pause_resume ps) ++ [CallDiscard]).
  rewrite (calls_app _ _ _ _ (session_runs db t0 task ps)).
  simpl. unfold discard; simpl.
  destruct (Z.eqb_spec (last_rowid db + 1) 0) as [H0|_]; [lia|].
  unfold delete_time_entry, stopped; simpl. do 3 f_equal.
  rewrite filter_app; simpl. rewrite Z.eqb_refl; simpl. rewrite app_nil_r.
  unfold keyed in Hkeyed.
  induction Hkeyed as [|row rows [i [Hid Hle]] _ IH]; simpl; [reflexivity|].
  rewrite Hid. destruct (Z.eqb_spec i (last_rowid db + 1)); [lia|].
  simpl. f_equal. exact IH.
Qed.

Lemma discard_leaves_no_record_witness :
  calls (stopped example_open_db)
        (CallStart 0 7 :: pause_resume [(10, 20)] ++ [CallDiscard])
  = Some (stopped (mkDb (time_entries example_open_db)
                        (last_rowid example_open_db + 1))).
Proof.
  apply (discard_leaves_no_record example_open_db 0 7 [(10, 20)]).
  - repeat constructor. exists 1. split; [reflexivity | simpl; lia].
  - simpl; lia.
Defined.


Lemma get_active_new_row (db : DatabaseManager) (e : TimeEntry) (k : Z) :
  all_closed db ->
  end_time e = None ->
  get_active_time_entry (mkDb (time_entries db ++ [e]) k) = Some e.
Proof.
  intros Hall He. rewrite get_active_fold; simpl.
  rewrite fold_left_app, (pick_open_closed (time_entries db) None Hall).
  simpl. unfold pick_open. rewrite He. reflexivity.
Qed.

(** A tracker constructed over the database of a live session (no other
    entry open) adopts that session, but not its pauses: it is RUNNING
    with paused duration 0 and shows the whole seconds since the start,
    where the live tracker shows them less the paused seconds. *)
Theorem recovery_forgets_pauses (db : DatabaseManager) (t0 now : datetime)
    (task : Z) (ps : list (datetime * datetime)) :
  all_closed db ->
  exists s,
    calls (stopped db) (CallStart t0 task :: pause_resume ps) = Some s /\
    init (db_manager s) now =
      Ok tt (mk (db_manager s) RUNNING (_current_entry s) (Some t0) None 0
                (int_total_seconds now t0) [] true)
         [state_changed RUNNING; time_updated (int_total_seconds now t0)] /\
    _elapsed_seconds (fst (_on_timer_tick s now))
      = int_total_seconds now t0 - paused_seconds ps.
Proof.
  intro Hall. exists (paused_session db t0 task ps).
  split; [apply session_runs|]. split; [|reflexivity].
  unfold init, _recover_active_entry, paused_session; simpl.
  rewrite (get_active_new_row
             db (with_id (new_entry task t0) (last_rowid db + 1))
             (last_rowid db + 1) Hall eq_refl).
  reflexivity.
Qed.

Lemma recovery_forgets_pauses_witness :
  exists s,
    calls (stopped (mkDb [] 0))
          (CallStart 0 7 :: pause_resume [(10000000, 40000000)]) = Some s /\
    init (db_manager s) 60000000 =
      Ok tt (mk (db_manager s) RUNNING (_current_entry s) (Some 0) None 0
                (int_total_seconds 60000000 0) [] true)
         [state_changed RUNNING;
          time_updated (int_total_seconds 60000000 0)] /\
    _elapsed_seconds (fst (_on_timer_tick s 60000000))
      = int_total_seconds 60000000 0
        - paused_seconds [(10000000, 40000000)].
Proof.
  apply (recovery_forgets_pauses (mkDb [] 0) 0 60000000 7
           [(10000000, 40000000)]).
  constructor.
Defined.

(** A session that is stopped leaves no entry open: over a database in
    which no other entry was open, the next tracker constructed starts
    STOPPED and emits nothing. *)
Theorem stop_closes_session (db : DatabaseManager) (t0 t_end now : datetime)
    (task : Z) (ps : list (datetime * datetime)) (notes_ : string) :
  all_closed db ->
  exists s,
    calls (stopped db)
          (CallStart t0 task :: pause_resume ps ++ [CallStop t_end notes_])
      = Some s /\
    _state s = STOPPED /\
    all_closed (db_manager s) /\
    init (db_manager s) now = Ok tt (stopped (db_manager s)) [].
Proof.
  intro Hall.
  set (e' := mkEntry (Some (last_rowid db + 1)) task (Some t0) (Some t_end)
                     (Z.max 0 (int_total_seconds t_end t0 - paused_seconds ps))
                     (avg_activity []) notes_ false).
  set (db' := update_time_entry
                (db_manager (paused_session db t0 task ps)) e').
  assert (Hclosed : all_closed db').
  { unfold all_closed, db', update_time_entry, paused_session; simpl.
    rewrite map_app. apply Forall_app. split.
    - unfold all_closed in Hall.
      induction Hall as [|row rows Hrow _ IH]; simpl; constructor;
        [|exact IH].
      destruct (id_matches row e'); [discriminate | exact Hrow].
    - simpl. unfold id_matches; simpl. rewrite Z.eqb_refl.
      constructor; [discriminate | constructor]. }
  exists (stopped db').
  split; [|split; [reflexivity|split; [exact Hclosed|]]].
  - change (CallStart t0 task :: pause_resume ps ++ [CallStop t_end notes_])
      with ((CallStart t0 task :: pause_resume ps)
            ++ [CallStop t_end notes_]).
    rewrite (calls_app _ _ _ _ (session_runs db t0 task ps)).
    reflexivity.
  - unfold init, _recover_active_entry; simpl.
    apply no_active_entry_iff_all_closed in Hclosed.
    simpl in Hclosed. rewrite Hclosed. reflexivity.
Qed.

Lemma stop_closes_session_witness :
  exists s,
    calls (stopped (mkDb [] 0))
          (CallStart 0 7 :: pause_resume [(10000000, 40000000)]
           ++ [CallStop 60000000 EmptyString])
      = Some s /\
    _state s = STOPPED /\
    all_closed (db_manager s) /\
    init (db_manager s) 70000000 = Ok tt (stopped (db_manager s)) [].
Proof.
  apply (stop_closes_session (mkDb [] 0) 0 60000000 70000000 7
           [(10000000, 40000000)] EmptyString).
  constructor.
Defined.

End TrackerRuns.

(** ** The time-entry table *)

Section DatabaseProperties.

Import Clock Database.

Lemma get_time_entry_find (db : DatabaseManager) (i : Z) :
  get_time_entry db i = find (has_id i) (time_entries db).
Proof. reflexivity. Qed.

Lemma find_app_none {A : Type} (f : A -> bool) (xs ys : list A) :
  find f xs = None -> find f (xs ++ ys) = find f ys.
Proof.
  induction xs as [|x xs IH]; simpl; [reflexivity|].
  destruct (f x); [discriminate | exact IH].
Qed.

Lemma find_app_skip {A : Type} (f : A -> bool) (xs ys : list A) :
  Forall (fun y => f y = false) ys -> find f (xs ++ ys) = find f xs.
Proof.
  intro Hys. induction xs as [|x xs IH]; simpl.
  - induction Hys as [|y ys Hy _ IHy]; simpl; [reflexivity|].
    rewrite Hy. exact IHy.
  - destruct (f x); [reflexivity | exact IH].
Qed.

Lemma keyed_above_absent (db : DatabaseManager) (i : Z) :
  keyed db -> last_rowid db < i -> get_time_entry db i = None.
Proof.
  unfold keyed. rewrite get_time_entry_find. intros Hk Hlt.
  induction Hk as [|row rows [j [Hj Hle]] _ IH]; simpl; [reflexivity|].
  unfold has_id at 1. rewrite Hj.
  destruct (Z.eqb_spec j i); [lia | exact IH].
Qed.

(** INSERT then SELECT: the id returned by [add_time_entry] was not in
    the table, is larger than every id in it, and afterwards leads to
    the entry just added; every other id leads where it led before, and
    the table keeps its ids. *)
Theorem add_then_get (db : DatabaseManager) (e : TimeEntry) :
  keyed db ->
  let db' := fst (add_time_entry db e) in
  let i := snd (add_time_entry db e) in
  get_time_entry db i = None /\
  get_time_entry db' i = Some (with_id e i) /\
  (forall j, j <> i -> get_time_entry db' j = get_time_entry db j) /\
  keyed db' /\
  last_rowid db' = i /\ last_rowid db < i.
Proof.
  intro Hk. simpl.
  assert (Hnew : get_time_entry db (last_rowid db + 1) = None)
    by (apply keyed_above_absent; [exact Hk | lia]).
  split; [exact Hnew|]. split.
  { rewrite get_time_entry_find in *; simpl.
    rewrite (find_app_none _ _ _ Hnew). simpl.
    unfold has_id; simpl. rewrite Z.eqb_refl. reflexivity. }
  split.
  { intros j Hj. rewrite !get_time_entry_find; simpl.
    apply find_app_skip. constructor; [|constructor].
    unfold has_id; simpl. destruct (Z.eqb_spec (last_rowid db + 1) j);
      [congruence | reflexivity]. }
  split; [|split; [reflexivity | lia]].
  unfold keyed in *; simpl. apply Forall_app. split.
  - eapply Forall_impl; [|exact Hk].
    intros row [j [Hj Hle]]. exists j. split; [exact Hj | lia].
  - constructor; [|constructor].
    exists (last_rowid db + 1). split; [reflexivity | lia].
Qed.

Lemma add_then_get_witness :
  let db' := fst (add_time_entry TimeTracker.example_open_db
                                 (new_entry 9 100)) in
  let i := snd (add_time_entry TimeTracker.example_open_db
                               (new_entry 9 100)) in
  get_time_entry TimeTracker.example_open_db i = None /\
  get_time_entry db' i = Some (with_id (new_entry 9 100) i) /\
  (forall j, j <> i ->
             get_time_entry db' j
             = get_time_entry TimeTracker.example_open_db j) /\
  keyed db' /\
  last_rowid db' = i /\ last_rowid TimeTracker.example_open_db < i.
Proof.
  apply (add_then_get TimeTracker.example_open_db (new_entry 9 100)).
  repeat constructor. exists 1. split; [reflexivity | simpl; lia].
Defined.

(** DELETE then SELECT: the deleted id leads nowhere, every other id
    leads where it led before, and the table keeps its ids. *)
Theorem delete_then_get (db : DatabaseManager) (i : Z) :
  get_time_entry (delete_time_entry db i) i = None /\
  (forall j, j <> i ->
             get_time_entry (delete_time_entry db i) j
             = get_time_entry db j) /\
  (keyed db -> keyed (delete_time_entry db i)).
Proof.
  rewrite get_time_entry_find. unfold delete_time_entry, keyed; simpl.
  split; [|split].
  - induction (time_entries db) as [|row rows IH]; simpl; [reflexivity|].
    destruct (id row) as [k|] eqn:Hk; simpl.
    + destruct (Z.eqb_spec k i); simpl; [exact IH|].
      unfold has_id at 1. rewrite Hk.
      destruct (Z.eqb_spec k i); [contradiction | exact IH].
    + unfold has_id at 1. rewrite Hk. exact IH.
  - intros j Hj. rewrite !get_time_entry_find; simpl.
    induction (time_entries db) as [|row rows IH]; simpl; [reflexivity|].
    destruct (id row) as [k|] eqn:Hk; simpl.
    + destruct (Z.eqb_spec k i) as [->|Hne]; simpl.
      * unfold has_id at 2. rewrite Hk.
        destruct (Z.eqb_spec i j); [congruence | exact IH].
      * unfold has_id at 1 3. rewrite Hk.
        destruct (k =? j); [reflexivity | exact IH].
    + unfold has_id at 1 3. rewrite Hk. exact IH.
  - intro Hk. apply Forall_forall. intros row Hin.
    apply filter_In in Hin. destruct Hin as [Hin _].
    rewrite Forall_forall in Hk. exact (Hk row Hin).
Qed.

(** UPDATE: only the rows with the entry's id are touched.  Every other
    id leads where it led before; the number of rows is the same; and an
    entry without id, or with an id that is not in the table, changes
    nothing. *)
Theorem update_touches_one_id (db : DatabaseManager) (e : TimeEntry) :
  (forall j, id e <> Some j ->
             get_time_entry (update_time_entry db e) j
             = get_time_entry db j) /\
  List.length (time_entries (update_time_entry db e))
    = List.length (time_entries db) /\
  (id e = None -> update_time_entry db e = db) /\
  (forall i, id e = Some i -> keyed db -> get_time_entry db i = None ->
             update_time_entry db e = db).
Proof.
  split; [|split; [|split]].
  - intros j Hj. rewrite !get_time_entry_find.
    unfold update_time_entry; simpl.
    induction (time_entries db) as [|row rows IH]; simpl; [reflexivity|].
    destruct (id_matches row e) eqn:Hm.
    + unfold id_matches in Hm.
      destruct (id row) as [k|] eqn:Hk; [|discriminate].
      destruct (id e) as [k'|] eqn:Hk'; [|discriminate].
      apply Z.eqb_eq in Hm. subst k'.
      unfold has_id at 1 3. rewrite Hk', Hk.
      destruct (Z.eqb_spec k j); [congruence | exact IH].
    + destruct (has_id j row); [reflexivity | exact IH].
  - unfold update_time_entry; simpl. apply length_map.
  - intro Hnone. unfold update_time_entry. destruct db as [rows k]; simpl.
    f_equal. induction rows as [|row rows IH]; simpl; [reflexivity|].
    rewrite IH. unfold id_matches. rewrite Hnone.
    destruct (id row); reflexivity.
  - intros i Hi Hk Habs. unfold update_time_entry.
    destruct db as [rows k]; unfold keyed in Hk; simpl in *.
    rewrite get_time_entry_find in Habs; simpl in Habs.
    f_equal. induction Hk as [|row rows [j [Hj Hle]] _ IH]; simpl;
      [reflexivity|].
    simpl in Habs. unfold has_id at 1 in Habs. rewrite Hj in Habs.
    destruct (Z.eqb_spec j i) as [->|Hne]; [discriminate|].
    rewrite (IH Habs). unfold id_matches. rewrite Hj, Hi.
    destruct (Z.eqb_spec j i); [contradiction | reflexivity].
Qed.

End DatabaseProperties.

(** ** The HH:MM:SS display *)

Section FormatProperties.

Import TimeTracker.
Open Scope string_scope.

Lemma below_100_all (n : Z) : 0 <= n < 100 -> In n Py.below_100.
Proof.
  intro H. unfold Py.below_100. apply in_map_iff.
  exists (Z.to_nat n). split; [lia|]. apply in_seq. lia.
Qed.

Lemma format_02d_width (n : Z) :
  0 <= n < 100 -> String.length (Py.format_02d n) = 2%nat.
Proof.
  intro H.
  assert (Htable : forallb (fun k => Nat.eqb (String.length (Py.format_02d k)) 2)
                           Py.below_100 = true) by (vm_compute; reflexivity).
  rewrite forallb_forall in Htable.
  apply Nat.eqb_eq. apply Htable. apply below_100_all. exact H.
Qed.

Lemma format_02d_injective (a b : Z) :
  0 <= a < 100 -> 0 <= b < 100 ->
  Py.format_02d a = Py.format_02d b -> a = b.
Proof.
  intros Ha Hb Heq.
  assert (Htable :
            forallb (fun x =>
                       forallb (fun y =>
                                  implb (String.eqb (Py.format_02d x)
                                                    (Py.format_02d y))
                                        (Z.eqb x y))
                               Py.below_100)
                    Py.below_100 = true) by (vm_compute; reflexivity).
  rewrite forallb_forall in Htable.
  specialize (Htable a (below_100_all a Ha)).
  rewrite forallb_forall in Htable.
  specialize (Htable b (below_100_all b Hb)).
  rewrite Heq, String.eqb_refl in Htable. simpl in Htable.
  apply Z.eqb_eq. exact Htable.
Qed.

Lemma append_split (a b c d : string) :
  String.length a = String.length c ->
  a ++ b = c ++ d -> a = c /\ b = d.
Proof.
  revert c. induction a as [|x a IH]; intros [|y c] Hlen Heq;
    simpl in *; try discriminate.
  - auto.
  - injection Hlen as Hlen. injection Heq as -> Heq.
    destruct (IH c Hlen Heq) as [-> ->]. auto.
Qed.

Lemma length_append (a b : string) :
  String.length (a ++ b) = (String.length a + String.length b)%nat.
Proof. induction a as [|x a IH]; simpl; [reflexivity | rewrite IH; reflexivity]. Qed.

(** For a duration of less than 100 hours [format_duration] gives eight
    characters, HH:MM:SS, with minutes and seconds below 60 that add up
    to the duration; different durations give different strings. *)
Theorem format_duration_hhmmss (seconds : Z) :
  0 <= seconds < 360000 ->
  exists h m sec,
    format_duration seconds =
      Py.format_02d h ++ ":" ++ Py.format_02d m ++ ":" ++ Py.format_02d sec /\
    0 <= h < 100 /\ 0 <= m < 60 /\ 0 <= sec < 60 /\
    h * 3600 + m * 60 + sec = seconds /\
    String.length (format_duration seconds) = 8%nat /\
    (forall other, 0 <= other < 360000 ->
                   format_duration other = format_duration seconds ->
                   other = seconds).
Proof.
  assert (Hparts : forall s, 0 <= s < 360000 ->
             0 <= s / 3600 < 100 /\ 0 <= s mod 3600 / 60 < 60
             /\ 0 <= s mod 3600 mod 60 < 60
             /\ s / 3600 * 3600 + s mod 3600 / 60 * 60 + s mod 3600 mod 60 = s).
  { intros s Hs.
    pose proof (Z.div_mod s 3600 ltac:(lia)).
    pose proof (Z.mod_pos_bound s 3600 ltac:(lia)).
    pose proof (Z.div_mod (s mod 3600) 60 ltac:(lia)).
    pose proof (Z.mod_pos_bound (s mod 3600) 60 ltac:(lia)).
    assert (0 <= s / 3600) by (apply Z.div_pos; lia).
    assert (s / 3600 < 100) by (apply Z.div_lt_upper_bound; lia).
    assert (0 <= s mod 3600 / 60) by (apply Z.div_pos; lia).
    assert (s mod 3600 / 60 < 60) by (apply Z.div_lt_upper_bound; lia).
    lia. }
  intro Hs. destruct (Hparts seconds Hs) as [Hh [Hm [Hsec Hsum]]].
  exists (seconds / 3600), (seconds mod 3600 / 60), (seconds mod 3600 mod 60).
  split; [reflexivity|]. repeat (split; [assumption|]). split.
  - unfold format_duration. rewrite !length_append.
    rewrite !format_02d_width by lia. reflexivity.
  - intros other Ho Heq.
    destruct (Hparts other Ho) as [Hh' [Hm' [Hsec' Hsum']]].
    unfold format_duration in Heq.
    apply append_split in Heq;
      [|rewrite !format_02d_width by lia; reflexivity].
    destruct Heq as [Eh Heq]. injection Heq as Heq.
    apply append_split in Heq;
      [|rewrite !format_02d_width by lia; reflexivity].
    destruct Heq as [Em Heq]. injection Heq as Es.
    apply format_02d_injective in Eh; [|lia|lia].
    apply format_02d_injective in Em; [|lia|lia].
    apply format_02d_injective in Es; [|lia|lia].
    lia.
Qed.

Lemma format_duration_hhmmss_witness :
  exists h m sec,
    format_duration 3725 =
      Py.format_02d h ++ ":" ++ Py.format_02d m ++ ":" ++ Py.format_02d sec /\
    0 <= h < 100 /\ 0 <= m < 60 /\ 0 <= sec < 60 /\
    h * 3600 + m * 60 + sec = 3725 /\
    String.length (format_duration 3725) = 8%nat /\
    (forall other, 0 <= other < 360000 ->
                   format_duration other = format_duration 3725 ->
                   other = 3725).
Proof. apply (format_duration_hhmmss 3725). lia. Defined.

(** One hour, two minutes and five seconds; a negative duration shows
    the floor of the division. *)
Example format_duration_examples :
  format_duration 3725 = "01:02:05"
  /\ format_duration 0 = "00:00:00"
  /\ format_duration 360000 = "100:00:00"
  /\ format_duration (-1) = "-1:59:59".
Proof. repeat split. Qed.

End FormatProperties.

(** ** The idle detector over whole runs *)

Section IdleDetectorRuns.

Import IdleDetector.

Lemma flags_agree_call (d : t) (c : Call) :
  _is_idle d = _was_notified d ->
  (_was_notified d = true -> _is_enabled d = true) ->
  _is_idle (fst (call d c)) = _was_notified (fst (call d c)) /\
  (_was_notified (fst (call d c)) = true ->
   _is_enabled (fst (call d c)) = true).
Proof.
  destruct d as [thr en idle notif]; simpl. intros -> Hn.
  destruct c as [v | [|] | n |]; simpl.
  - split; [reflexivity | exact Hn].
  - split; [reflexivity | intros _; reflexivity].
  - split; [reflexivity | discriminate].
  - unfold on_idle_detected; simpl.
    destruct en; simpl; [|split; [reflexivity | exact Hn]].
    destruct (thr <=? n); destruct notif; simpl;
      try (split; [reflexivity | intros _; reflexivity]).
    destruct (n =? 0); simpl; split; (reflexivity || intros _; reflexivity).
  - split; [reflexivity | discriminate].
Qed.

(** Whatever is done with a detector, [is_idle] and [notified] are the
    same flag, and a detector that has notified is enabled. *)
Theorem flags_agree (threshold : Z) (cs : list Call) :
  let d := fst (calls (init threshold) cs) in
  _is_idle d = _was_notified d /\
  (_was_notified d = true -> _is_enabled d = true).
Proof.
  assert (Hgen : forall cs d,
             _is_idle d = _was_notified d ->
             (_was_notified d = true -> _is_enabled d = true) ->
             _is_idle (fst (calls d cs)) = _was_notified (fst (calls d cs)) /\
             (_was_notified (fst (calls d cs)) = true ->
              _is_enabled (fst (calls d cs)) = true)).
  { clear cs. induction cs as [|c cs IH]; intros d Hi Hn; simpl; [auto|].
    destruct (flags_agree_call d c Hi Hn) as [Hi1 Hn1].
    destruct (call d c) as [d1 evs]; simpl in *.
    specialize (IH d1 Hi1 Hn1).
    destruct (calls d1 cs) as [d2 evs']; simpl in *. exact IH. }
  apply Hgen; [reflexivity | discriminate].
Qed.

(** Fed idle seconds that are never 0 -- all the activity monitor ever
    sends -- a detector notifies at most once and never reports that
    activity resumed; once it has notified it stays silent, however
    often the idle seconds fall below the threshold and cross it
    again. *)
Theorem nonzero_feed_fires_at_most_once (d : t) (ns : list Z) :
  Forall (fun n => n <> 0) ns ->
  (count idle_threshold_reached (snd (run d ns)) <= 1)%nat /\
  count activity_resumed (snd (run d ns)) = 0%nat /\
  (_was_notified d = true ->
   run d ns = (d, repeat [] (List.length ns))).
Proof.
  intro Hall.
  assert (Hsilent : forall d', _was_notified d' = true ->
                               run d' ns = (d', repeat [] (List.length ns))).
  { intros d' Hn. apply run_silent with (P := fun n => n <> 0);
      [intros; apply silent_notified; assumption | exact Hall]. }
  split; [|split; [|apply Hsilent]].
  - revert d Hsilent. induction Hall as [|n ns Hn Hns IH]; intros d Hsilent;
      simpl; [unfold count; simpl; lia|].
    destruct (on_idle_detected d n) as [d1 evs] eqn:Hcall.
    destruct (run d1 ns) as [d2 tr] eqn:Hrun. simpl.
    change (evs :: tr) with ([evs] ++ tr). rewrite count_app.
    unfold on_idle_detected in Hcall.
    destruct (_is_enabled d); simpl in Hcall;
      [|injection Hcall as <- <-; specialize (IH d);
        rewrite Hrun in IH; simpl in IH; unfold count at 1; simpl;
        apply IH; intros d' Hd';
        apply run_silent with (P := fun n => n <> 0);
        [intros; apply silent_notified; assumption | exact Hns]].
    destruct (_threshold_seconds d <=? n).
    + destruct (_was_notified d) eqn:Hnot; simpl in Hcall;
        injection Hcall as <- <-.
      * specialize (IH d). rewrite Hrun in IH. simpl in IH.
        unfold count at 1; simpl. apply IH. intros d' Hd'.
        apply run_silent with (P := fun n => n <> 0);
          [intros; apply silent_notified; assumption | exact Hns].
      * assert (Hrest : run (mk (_threshold_seconds d) true true true) ns =
                        (mk (_threshold_seconds d) true true true,
                         repeat [] (List.length ns))).
        { apply run_silent with (P := fun n => n <> 0);
            [intros; apply silent_notified; [reflexivity | assumption]
            | exact Hns]. }
        rewrite Hrest in Hrun. injection Hrun as _ <-.
        rewrite count_silent. unfold count; simpl. lia.
    + destruct (Z.eqb_spec n 0) as [H0|_]; [contradiction|].
      rewrite andb_false_r in Hcall. injection Hcall as <- <-.
      specialize (IH d). rewrite Hrun in IH. simpl in IH.
      unfold count at 1; simpl. apply IH. intros d' Hd'.
      apply run_silent with (P := fun n => n <> 0);
        [intros; apply silent_notified; assumption | exact Hns].
  - clear Hsilent. revert d. induction Hall as [|n ns Hn Hns IH]; intro d;
      simpl; [reflexivity|].
    destruct (on_idle_detected d n) as [d1 evs] eqn:Hcall.
    specialize (IH d1). destruct (run d1 ns) as [d2 tr]. simpl in *.
    change (evs :: tr) with ([evs] ++ tr). rewrite count_app, IH.
    unfold on_idle_detected in Hcall.
    destruct (_is_enabled d); simpl in Hcall;
      [|injection Hcall as _ <-; reflexivity].
    destruct (_threshold_seconds d <=? n).
    + destruct (_was_notified d); simpl in Hcall;
        injection Hcall as _ <-; reflexivity.
    + destruct (Z.eqb_spec n 0) as [H0|_]; [contradiction|].
      rewrite andb_false_r in Hcall. injection Hcall as _ <-. reflexivity.
Qed.

Lemma nonzero_feed_fires_at_most_once_witness :
  Nat.le (count idle_threshold_reached
            (snd (run (init 300) [299; 300; 301; 12; 300; 400]))) 1 /\
  count activity_resumed
    (snd (run (init 300) [299; 300; 301; 12; 300; 400])) = 0%nat /\
  (_was_notified (init 300) = true ->
   run (init 300) [299; 300; 301; 12; 300; 400] =
     (init 300, repeat [] (List.length [299; 300; 301; 12; 300; 400]))).
Proof.
  apply (nonzero_feed_fires_at_most_once (init 300)
           [299; 300; 301; 12; 300; 400]).
  repeat constructor; discriminate.
Defined.

(** Disabling clears the notification without a signal, a disabled
    detector ignores idle seconds, and once enabled again the detector
    notifies anew at the next value at or above the threshold, in the
    same idle episode. *)
Theorem disabling_rearms (d : t) (n n' : Z) :
  _threshold_seconds d <= n' ->
  let d1 := set_is_enabled d false in
  let d2 := set_is_enabled d1 true in
  _is_idle d1 = false /\ _was_notified d1 = false /\
  on_idle_detected d1 n = (d1, []) /\
  on_idle_detected d2 n' =
    (mk (_threshold_seconds d) true true true, [idle_threshold_reached]).
Proof.
  intro Hge. simpl. repeat split.
  unfold on_idle_detected; simpl.
  destruct (Z.leb_spec (_threshold_seconds d) n'); [reflexivity | lia].
Qed.

Lemma disabling_rearms_witness :
  let d := mk 300 true true true in
  let d1 := set_is_enabled d false in
  let d2 := set_is_enabled d1 true in
  _is_idle d1 = false /\ _was_notified d1 = false /\
  on_idle_detected d1 500 = (d1, []) /\
  on_idle_detected d2 501 =
    (mk (_threshold_seconds d) true true true, [idle_threshold_reached]).
Proof.
  apply (disabling_rearms (mk 300 true true true) 500 501). simpl; lia.
Defined.

(** A threshold installed by the setter is at least 60: no value below
    60 makes the detector notify, whatever was asked for.  (The
    constructor takes its argument as it is.) *)
Theorem set_threshold_floor (d : t) (value n : Z) :
  n < 60 ->
  60 <= _threshold_seconds (set_threshold_seconds d value) /\
  (60 <= value -> _threshold_seconds (set_threshold_seconds d value) = value) /\
  ~ In idle_threshold_reached
       (snd (on_idle_detected (set_threshold_seconds d value) n)).
Proof.
  intro Hn. simpl. split; [lia|]. split; [lia|].
  unfold on_idle_detected; simpl.
  destruct (_is_enabled d); simpl; [|tauto].
  destruct (Z.leb_spec (Z.max 60 value) n); [lia|].
  destruct (_was_notified d && (n =? 0)); simpl; [|tauto].
  intros [Habs|[]]; discriminate.
Qed.

Lemma set_threshold_floor_witness :
  60 <= _threshold_seconds (set_threshold_seconds (init 300) 5) /\
  (60 <= 5 -> _threshold_seconds (set_threshold_seconds (init 300) 5) = 5) /\
  ~ In idle_threshold_reached
       (snd (on_idle_detected (set_threshold_seconds (init 300) 5) 59)).
Proof. apply (set_threshold_floor (init 300) 5 59). lia. Defined.

End IdleDetectorRuns.

(** ** The activity sampler over whole runs *)

Section ActivityMonitorRuns.

Import Clock ActivityMonitor.

Lemma Py_min_range (b : Q) :
  (0 <= b)%Q ->
  (0 <= Py.min (100 # 1) b /\ Py.min (100 # 1) b <= 100 # 1)%Q.
Proof.
  intro Hb. rewrite Py_min_Qmin. split.
  - apply Q.min_glb; [discriminate | exact Hb].
  - apply Q.le_min_l.
Qed.

Lemma finalize_second_nonneg (m : t) (c : Z) :
  0 <= _active_seconds_in_interval m ->
  0 <= _continuous_idle_seconds m ->
  0 <= _active_seconds_in_interval (finalize_second m c) /\
  0 <= _continuous_idle_seconds (finalize_second m c) /\
  _sample_interval (finalize_second m c) = _sample_interval m.
Proof.
  intros Ha Hi. unfold finalize_second.
  destruct (_last_second_check m <? c); simpl; [|auto].
  destruct (_current_second_active m); repeat split; lia.
Qed.

Lemma emit_idle_in_range (m : t) : Forall in_range (emit_idle m).
Proof.
  unfold emit_idle.
  destruct (Z.ltb_spec 0 (_continuous_idle_seconds m)); constructor;
    [exact H | constructor].
Qed.

(** One tick of a monitor with a positive interval and counters that are
    not negative returns, with signals in range and counters that are not
    negative. *)
Lemma tick_in_range (m : t) (r : Readings) :
  0 < _sample_interval m ->
  0 <= _active_seconds_in_interval m ->
  0 <= _continuous_idle_seconds m ->
  exists m' evs,
    _on_check_timer m r = Ok m' evs /\
    Forall in_range evs /\
    _sample_interval m' = _sample_interval m /\
    0 <= _active_seconds_in_interval m' /\
    0 <= _continuous_idle_seconds m'.
Proof.
  intros HI Ha Hi.
  destruct (finalize_second_nonneg m (current_second r) Ha Hi)
    as [Ha1 [Hi1 HI1]].
  unfold _on_check_timer.
  set (m1 := finalize_second m (current_second r)) in *.
  destruct (_interval_start_time m1) as [t0|];
    [|exists m1, (emit_idle m1); repeat split;
      auto using emit_idle_in_range].
  destruct (total_seconds_geb (now r) t0 (_sample_interval m1));
    [|exists m1, (emit_idle m1); repeat split;
      auto using emit_idle_in_range].
  destruct (Z.eqb_spec (_sample_interval m1) 0) as [H0|_]; [lia|].
  eexists. eexists. split; [reflexivity|].
  split; [|simpl; repeat split; auto; lia].
  constructor; [|apply emit_idle_in_range].
  unfold in_range. rewrite percentage_spec.
  apply spec_percentage_range; lia.
Qed.

(** Whatever is done with a monitor whose interval is positive, no call
    raises, every percentage it emits lies between 0 and 100, and every
    idle signal carries a positive number of seconds: the value 0 is
    never sent. *)
Theorem monitor_signals_in_range (sample_interval : Z) (cs : list Call) :
  0 < sample_interval ->
  exists m evs,
    calls (init sample_interval) cs = Ok m evs /\
    Forall in_range evs /\
    0 <= _active_seconds_in_interval m /\
    0 <= _continuous_idle_seconds m.
Proof.
  intro HI.
  assert (Hgen : forall cs m,
             0 < _sample_interval m ->
             0 <= _active_seconds_in_interval m ->
             0 <= _continuous_idle_seconds m ->
             exists m' evs,
               calls m cs = Ok m' evs /\ Forall in_range evs /\
               0 <= _active_seconds_in_interval m' /\
               0 <= _continuous_idle_seconds m').
  { clear cs. induction cs as [|c cs IH]; intros m Hint Ha Hi.
    - exists m, []. repeat split; auto.
    - assert (Hquiet : forall m1,
                 0 < _sample_interval m1 ->
                 0 <= _active_seconds_in_interval m1 ->
                 0 <= _continuous_idle_seconds m1 ->
                 exists m' evs,
                   match calls m1 cs with
                   | Ok m2 evs' => Ok m2 ([] ++ evs')
                   | Raise exn m2 evs' => Raise exn m2 ([] ++ evs')
                   end = Ok m' evs /\ Forall in_range evs /\
                   0 <= _active_seconds_in_interval m' /\
                   0 <= _continuous_idle_seconds m').
      { intros m1 H1 H2 H3.
        destruct (IH m1 H1 H2 H3) as [m' [evs [Hc Hrest]]].
        exists m', evs. rewrite Hc. split; [reflexivity | exact Hrest]. }
      destruct c as [av now1 now2 second | | now_ second | now_ | r]; simpl.
      + apply Hquiet; unfold start;
          destruct (_is_running m || negb av); simpl; auto; lia.
      + apply Hquiet; unfold stop;
          destruct (negb (_is_running m)); simpl; auto.
      + apply Hquiet; simpl; auto; lia.
      + apply Hquiet; simpl; auto; lia.
      + destruct (tick_in_range m r Hint Ha Hi)
          as [m1 [evs1 [Htick [Hev1 [HI1 [Ha1 Hi1]]]]]].
        rewrite Htick.
        destruct (IH m1 ltac:(lia) Ha1 Hi1) as [m' [evs [Hc [Hev Hrest]]]].
        exists m', (evs1 ++ evs). rewrite Hc.
        split; [reflexivity|]. split; [|exact Hrest].
        apply Forall_app; split; assumption. }
  apply Hgen; simpl; lia.
Qed.

Lemma monitor_signals_in_range_witness :
  exists m evs,
    calls (init 60)
          [CallStart true 0 0 0; CallActivity 400000;
           CallTick (mkReadings 1 1000000 1000000 1);
           CallTick (mkReadings 2 2000000 2000000 2);
           CallTick (mkReadings 61 61000000 61000000 61)]
      = Ok m evs /\
    Forall in_range evs /\
    0 <= _active_seconds_in_interval m /\
    0 <= _continuous_idle_seconds m.
Proof. apply (monitor_signals_in_range 60). lia. Defined.

(** The trace of that run: one active second, then idle seconds 1 and 2,
    and at second 61 the percentage of the minute. *)
Example monitor_run_example :
  exists p,
    calls (init 60)
          [CallStart true 0 0 0; CallActivity 400000;
           CallTick (mkReadings 1 1000000 1000000 1);
           CallTick (mkReadings 2 2000000 2000000 2);
           CallTick (mkReadings 61 61000000 61000000 61)]
    = Ok (mk 60 true (Some 400000) 0 (Some 61000000) 2 false 61 true)
         [idle_detected 1; activity_updated p; idle_detected 2]
    /\ (p == 5 # 3)%Q.
Proof. eexists. split; reflexivity. Qed.

(** The live estimate lies between 0 and 100 when the count of active
    seconds is not negative, and is 0 before the monitor has started or
    when no time has passed. *)
Theorem current_percentage_in_range (m : t) (now_ : datetime) :
  0 <= _active_seconds_in_interval m ->
  (0 <= get_current_activity_percentage m now_
   /\ get_current_activity_percentage m now_ <= 100 # 1)%Q /\
  (_interval_start_time m = None ->
   get_current_activity_percentage m now_ = 0 # 1) /\
  (forall t0, _interval_start_time m = Some t0 -> now_ <= t0 ->
              get_current_activity_percentage m now_ = 0 # 1).
Proof.
  intro Ha. unfold get_current_activity_percentage. split; [|split].
  - destruct (_interval_start_time m) as [t0|];
      [|split; discriminate].
    destruct (Z.leb_spec (now_ - t0) 0); [split; discriminate|].
    apply Py_min_range.
    apply Qmult_le_0_compat; [|discriminate].
    apply Qle_shift_div_l.
    + apply Qlt_shift_div_l; [reflexivity|].
      rewrite Qmult_0_l. change 0%Q with (inject_Z 0).
      rewrite <- Zlt_Qlt. lia.
    + rewrite Qmult_0_l. change 0%Q with (inject_Z 0).
      rewrite <- Zle_Qle. exact Ha.
  - intros ->. reflexivity.
  - intros t0 -> Hle.
    destruct (Z.leb_spec (now_ - t0) 0); [reflexivity | lia].
Qed.

Lemma current_percentage_in_range_witness :
  (0 <= get_current_activity_percentage example_monitor 59500000%Z
   /\ get_current_activity_percentage example_monitor 59500000%Z
      <= 100 # 1)%Q /\
  (_interval_start_time example_monitor = None ->
   get_current_activity_percentage example_monitor 59500000 = 0 # 1) /\
  (forall t0, _interval_start_time example_monitor = Some t0 ->
              59500000 <= t0 ->
              get_current_activity_percentage example_monitor 59500000
              = 0 # 1).
Proof.
  apply (current_percentage_in_range example_monitor 59500000). simpl; lia.
Defined.

(** Input resets the idle counter at once, and the tick that closes a
    second with input counts it as active and sends no idle signal, also
    when that tick ends the interval. *)
Theorem activity_silences_idle (m : t) (now_ : datetime) (r : Readings) :
  _last_second_check m < current_second r ->
  _sample_interval m <> 0 ->
  _continuous_idle_seconds (_register_activity m now_) = 0 /\
  exists m' evs,
    _on_check_timer (_register_activity m now_) r = Ok m' evs /\
    _continuous_idle_seconds m' = 0 /\
    _current_second_active m' = false /\
    (forall n, ~ In (idle_detected n) evs) /\
    _active_seconds_in_interval
      (finalize_second (_register_activity m now_) (current_second r))
    = _active_seconds_in_interval m + 1.
Proof.
  intros Hnew HI. split; [reflexivity|].
  unfold _on_check_timer, finalize_second; simpl.
  destruct (Z.ltb_spec (_last_second_check m) (current_second r)); [|lia].
  simpl.
  destruct (_interval_start_time m) as [t0|].
  - destruct (total_seconds_geb (now r) t0 (_sample_interval m)).
    + destruct (Z.eqb_spec (_sample_interval m) 0) as [H0|_];
        [contradiction|].
      eexists. eexists. split; [reflexivity|]. simpl.
      repeat split. intros n [Habs|[]]. discriminate.
    + eexists. eexists. split; [reflexivity|]. simpl.
      repeat split. intros n [].
  - eexists. eexists. split; [reflexivity|]. simpl.
    repeat split. intros n [].
Qed.

Lemma activity_silences_idle_witness :
  _continuous_idle_seconds (_register_activity example_monitor 59900000) = 0 /\
  exists m' evs,
    _on_check_timer (_register_activity example_monitor 59900000)
                    example_readings = Ok m' evs /\
    _continuous_idle_seconds m' = 0 /\
    _current_second_active m' = false /\
    (forall n, ~ In (idle_detected n) evs) /\
    _active_seconds_in_interval
      (finalize_second (_register_activity example_monitor 59900000)
                       (current_second example_readings))
    = _active_seconds_in_interval example_monitor + 1.
Proof.
  apply (activity_silences_idle example_monitor 59900000 example_readings).
  - simpl; lia.
  - simpl; discriminate.
Defined.

End ActivityMonitorRuns.

(** ** The screenshot scheduler over whole runs *)

Section ScreenshotRuns.

Import Clock ScreenshotCapture.
Open Scope string_scope.

(** [capture_now] writes a screenshot exactly when the library is there,
    the start-up delay is over, the foreground window is not the
    tracker's, and the I/O succeeds.  It then returns the path and emits
    [screenshot_taken] with the path and the current activity, and
    otherwise returns nothing and emits one signal that is not
    [screenshot_taken]. *)
Theorem capture_exactly_when_allowed (s : t) (e : Env) :
  (may_capture s e = true ->
   capture_now s e =
     (Some (filepath s e),
      [screenshot_taken (filepath s e) (_current_activity s)])) /\
  (may_capture s e = false ->
   fst (capture_now s e) = None /\
   exists ev, snd (capture_now s e) = [ev] /\ is_taken ev = false).
Proof.
  assert (Hno : forall ev : Signal,
             is_taken ev = false ->
             (false = true ->
              (@None string, [ev]) =
              (Some (filepath s e),
               [screenshot_taken (filepath s e) (_current_activity s)])) /\
             (false = false ->
              fst (@None string, [ev]) = None /\
              exists ev', snd (@None string, [ev]) = [ev']
                          /\ is_taken ev' = false)).
  { intros ev Hev. split; [discriminate|]. intros _.
    split; [reflexivity|]. exists ev. split; [reflexivity | exact Hev]. }
  unfold may_capture, capture_now, _should_skip_capture, attempt,
         total_seconds_ltb.
  generalize (STARTUP_DELAY * MICROSECONDS)%Z. intro delay.
  destruct (MSS_AVAILABLE e); cbn [andb negb]; [|apply Hno; reflexivity].
  destruct (_start_time s) as [t0|].
  - destruct (Z.leb_spec delay (now e - t0));
      destruct (Z.ltb_spec (now e - t0) delay); try lia; cbn [andb negb];
      [|apply Hno; reflexivity].
    destruct (Py.contains APP_WINDOW_TITLE (active_window_title e));
      cbn [andb negb]; [apply Hno; reflexivity|].
    destruct (io_error e); [apply Hno; reflexivity|].
    split; [reflexivity | discriminate].
  - destruct (Py.contains APP_WINDOW_TITLE (active_window_title e));
      cbn [andb negb]; [apply Hno; reflexivity|].
    destruct (io_error e); [apply Hno; reflexivity|].
    split; [reflexivity | discriminate].
Qed.

Lemma start_waits_for_interval (s : t) (now_ : datetime) (t_ : Z) :
  _is_running s = false -> single_shots s = [] ->
  waiting_interval (start s now_ t_).
Proof.
  intros Hrun Hq. unfold start, waiting_interval. rewrite Hrun; simpl.
  repeat split. exact Hq.
Qed.

(** A scheduler that has been started and is then driven by its timers
    alone, through any run of timeouts, stays running with a timer
    armed and never has more than one retry queued. *)
Theorem timers_keep_scheduler_alive
    (dir : string) (interval_seconds quality : Z) (now_ : datetime) (t_ : Z)
    (ds : list (Timeout * Env)) (s' : t) (evs : list Signal) :
  deliveries (start (init dir interval_seconds quality) now_ t_) ds
    = Some (s', evs) ->
  _is_running s' = true /\
  armed s' = true /\
  (List.length (single_shots s') <= 1)%nat /\
  (waiting_interval s' \/ waiting_retry s').
Proof.
  assert (Hgen : forall ds s s' evs,
             waiting_interval s \/ waiting_retry s ->
             deliveries s ds = Some (s', evs) ->
             waiting_interval s' \/ waiting_retry s').
  { clear. induction ds as [|[which e] ds IH]; simpl; intros s s' evs Hs Hd.
    - injection Hd as <- _. exact Hs.
    - destruct (deliver s which e) as [[s1 evs1]|] eqn:H1; [|discriminate].
      destruct (deliveries s1 ds) as [[s2 evs2]|] eqn:H2; [|discriminate].
      injection Hd as <- _.
      apply (IH s1 s2 evs2); [|exact H2].
      apply (deliver_keeps_shape s s1 which e evs1 Hs H1). }
  intro Hd.
  assert (Hshape : waiting_interval s' \/ waiting_retry s').
  { apply (Hgen ds (start (init dir interval_seconds quality) now_ t_)
                  s' evs); [left|exact Hd].
    apply start_waits_for_interval; reflexivity. }
  destruct (shape_armed s' Hshape) as [Harmed Hlen].
  split; [|auto].
  destruct Hshape as [[Hrun _] | [Hrun _]]; exact Hrun.
Qed.

Lemma timers_keep_scheduler_alive_witness :
  exists s' evs,
    deliveries (start (init "shots" 600 70) 0 0)
               [(CaptureTimer, example_env 600 "Desktop Time Tracker" None);
                (SingleShot, example_env 720 "Desktop Time Tracker" None);
                (CaptureTimer, example_env 1320 "Editor" None)]
      = Some (s', evs) /\
    _is_running s' = true /\
    armed s' = true /\
    (List.length (single_shots s') <= 1)%nat /\
    (waiting_interval s' \/ waiting_retry s').
Proof.
  eexists. eexists. split; [reflexivity|].
  apply (timers_keep_scheduler_alive
           "shots" 600 70 0 0
           [(CaptureTimer, example_env 600 "Desktop Time Tracker" None);
            (SingleShot, example_env 720 "Desktop Time Tracker" None);
            (CaptureTimer, example_env 1320 "Editor" None)]
           _ _ eq_refl).
Defined.

(** After [stop] nothing is captured any more: the repeating timer
    cannot fire, and a retry still queued from an earlier skip fires
    without a capture attempt, without a signal and without restarting
    the timer. *)
Theorem stop_silences_timers
    (s : t) (which : Timeout) (e : Env) (s' : t) (evs : list Signal) :
  waiting_interval s \/ waiting_retry s ->
  deliver (stop s) which e = Some (s', evs) ->
  which = SingleShot /\ evs = [] /\
  _is_running s' = false /\ isActive (_capture_timer s') = false.
Proof.
  intros Hshape Hd.
  assert (Hrun : _is_running s = true)
    by (destruct Hshape as [[H _] | [H _]]; exact H).
  unfold stop in Hd. rewrite Hrun in Hd; simpl in Hd.
  destruct which; simpl in Hd; [discriminate|].
  destruct (single_shots s) as [|d rest]; [discriminate|].
  unfold _on_retry_after_skip in Hd; simpl in Hd.
  injection Hd as <- <-. repeat split.
Qed.

Lemma stop_silences_timers_witness :
  exists s1 s',
    fst (_on_capture_timer example_scheduler
           (example_env 600 "Desktop Time Tracker" None) 600000) = s1 /\
    deliver (stop s1) SingleShot (example_env 720 "Editor" None)
      = Some (s', []) /\
    SingleShot = SingleShot /\ @nil Signal = [] /\
    _is_running s' = false /\ isActive (_capture_timer s') = false.
Proof.
  eexists. eexists. split; [reflexivity|]. split; [reflexivity|].
  apply (stop_silences_timers
           (fst (_on_capture_timer example_scheduler
                   (example_env 600 "Desktop Time Tracker" None) 600000))
           SingleShot (example_env 720 "Editor" None) _ []).
  - right. unfold waiting_retry; simpl. repeat split. eexists; reflexivity.
  - reflexivity.
Defined.

(** [start] on a running scheduler and [stop] on a stopped one do
    nothing: a second [start] restarts neither the start-up delay nor
    the timer, and [stop] can be repeated. *)
Theorem scheduler_start_stop_idempotent
    (s : t) (now1 now2 : datetime) (t1 t2 : Z) :
  start (start s now1 t1) now2 t2 = start s now1 t1 /\
  stop (stop s) = stop s /\
  _is_running (start s now1 t1) = true /\
  _is_running (stop s) = false.
Proof.
  unfold start, stop.
  destruct (_is_running s) eqn:Hrun; simpl; rewrite ?Hrun; simpl;
    repeat split; reflexivity || exact Hrun.
Qed.

End ScreenshotRuns.

(** ** The window: tracker, sampler, detector and scheduler together *)

Section WindowProperties.

Import Clock MainWindow.

Lemma start_true_running (tr tr' : TimeTracker.t) (now_ : datetime)
    (task : Z) (evs : list TimeTracker.Signal) :
  TimeTracker.start tr now_ task = TimeTracker.Ok true tr' evs ->
  TimeTracker._state tr' = TimeTracker.RUNNING.
Proof.
  unfold TimeTracker.start, TimeTracker.resume_from_pause.
  destruct (TimeTracker._state tr); simpl.
  - intro H; injection H as <- _. reflexivity.
  - discriminate.
  - destruct (TimeTracker._pause_time tr); [|discriminate].
    intro H; injection H as <- _. reflexivity.
Qed.

Lemma resume_paused_running (tr tr' : TimeTracker.t) (now_ : datetime)
    (b : bool) (evs : list TimeTracker.Signal) :
  TimeTracker._state tr = TimeTracker.PAUSED ->
  TimeTracker.resume tr now_ = TimeTracker.Ok b tr' evs ->
  TimeTracker._state tr' = TimeTracker.RUNNING.
Proof.
  unfold TimeTracker.resume, TimeTracker.resume_from_pause. intros ->.
  destruct (TimeTracker._pause_time tr); [|discriminate].
  intro H; injection H as _ <- _. reflexivity.
Qed.

Lemma is_paused_true (tr : TimeTracker.t) :
  TimeTracker.is_paused tr = true ->
  TimeTracker._state tr = TimeTracker.PAUSED.
Proof.
  unfold TimeTracker.is_paused. destruct (TimeTracker._state tr);
    simpl; congruence.
Qed.

Lemma deliver_keeps_running (sc sc' : ScreenshotCapture.t)
    (which : ScreenshotCapture.Timeout) (e : ScreenshotCapture.Env)
    (evs : list ScreenshotCapture.Signal) :
  ScreenshotCapture.deliver sc which e = Some (sc', evs) ->
  ScreenshotCapture._is_running sc' = ScreenshotCapture._is_running sc.
Proof.
  unfold ScreenshotCapture.deliver. destruct which.
  - destruct (ScreenshotCapture.due (ScreenshotCapture._capture_timer sc));
      [|discriminate].
    unfold ScreenshotCapture._on_capture_timer.
    destruct (ScreenshotCapture.capture_now _ e) as [[path|] evs0]; simpl.
    + intro H; injection H as <- _. reflexivity.
    + destruct (ScreenshotCapture._is_running sc) eqn:Hrun; simpl;
        intro H; injection H as <- _; simpl; congruence.
  - destruct (ScreenshotCapture.single_shots sc); [discriminate|].
    unfold ScreenshotCapture._on_retry_after_skip; simpl.
    destruct (ScreenshotCapture._is_running sc) eqn:Hrun.
    + destruct (ScreenshotCapture.capture_now _ e).
      intro H; injection H as <- _. simpl. reflexivity.
    + intro H; injection H as <- _. simpl. reflexivity.
Qed.

Lemma on_pause_follows (w w' : t) (r : Readings) :
  capture_follows_tracker w -> _on_pause w r = Some w' ->
  capture_follows_tracker w'.
Proof.
  unfold capture_follows_tracker, _on_pause, TimeTracker.pause.
  intros Hw. destruct (TimeTracker._state (_tracker w)) eqn:Hst; simpl;
    intro H; injection H as <-; simpl.
  - rewrite Hst. exact Hw.
  - unfold ScreenshotCapture.stop.
    destruct (ScreenshotCapture._is_running (_screenshot_capture w)) eqn:Hr;
      simpl; congruence.
  - rewrite Hst. exact Hw.
Qed.

Lemma on_activity_follows (w : t) (p : Q) :
  capture_follows_tracker w ->
  capture_follows_tracker (_on_activity_updated w p).
Proof.
  unfold capture_follows_tracker, _on_activity_updated; simpl.
  destruct (TimeTracker.is_running (_tracker w)); simpl; auto.
Qed.

Lemma on_detector_signals_follow (sigs : list IdleDetector.Signal)
    (w w' : t) (r : Readings) :
  capture_follows_tracker w -> on_detector_signals w r sigs = Some w' ->
  capture_follows_tracker w'.
Proof.
  revert w. induction sigs as [|[|] sigs IH]; simpl; intros w Hw H.
  - injection H as <-. exact Hw.
  - destruct (_on_idle_threshold w r) as [w1|] eqn:H1; [|discriminate].
    apply (IH w1); [|exact H].
    unfold _on_idle_threshold in H1.
    destruct (TimeTracker.is_running (_tracker w));
      [eapply on_pause_follows; eassumption | injection H1 as <-; exact Hw].
  - apply (IH w); assumption.
Qed.

Lemma on_monitor_signals_follow (sigs : list ActivityMonitor.Signal)
    (w w' : t) (r : Readings) :
  capture_follows_tracker w -> on_monitor_signals w r sigs = Some w' ->
  capture_follows_tracker w'.
Proof.
  revert w. induction sigs as [|[p|n] sigs IH]; simpl; intros w Hw H.
  - injection H as <-. exact Hw.
  - apply (IH _ (on_activity_follows w p Hw) H).
  - destruct (IdleDetector.on_idle_detected (_idle_detector w) n)
      as [d out].
    destruct (on_detector_signals _ r out) as [w2|] eqn:H2; [|discriminate].
    apply (IH w2); [|exact H].
    eapply on_detector_signals_follow; [|exact H2]. exact Hw.
Qed.

Lemma step_follows (w w' : t) (a : Action) :
  capture_follows_tracker w -> step w a = Some w' ->
  capture_follows_tracker w'.
Proof.
  intros Hw Hs. destruct a; simpl in Hs.
  - (* _on_task_start_from_list *)
    unfold _on_task_start_from_list in Hs.
    destruct (TimeTracker.is_running (_tracker w)
              || TimeTracker.is_paused (_tracker w));
      [injection Hs as <-; exact Hw|].
    destruct (TimeTracker.start (_tracker w) (tracker_now r) task_id)
      as [[|] tr evs|] eqn:Hstart; [| |discriminate].
    + injection Hs as <-. intros _. simpl.
      unfold start_capture; simpl.
      destruct (screenshots_enabled w); simpl;
        eapply start_true_running; eassumption.
    + unfold TimeTracker.start, TimeTracker.resume_from_pause in Hstart.
      destruct (TimeTracker._state (_tracker w)) eqn:Hst;
        [discriminate| |destruct (TimeTracker._pause_time (_tracker w));
                        discriminate].
      injection Hstart as <- _. injection Hs as <-.
      unfold capture_follows_tracker; simpl. rewrite Hst. auto.
  - (* _on_start *)
    unfold _on_start, resume_tracking in Hs.
    destruct (TimeTracker.is_paused (_tracker w)) eqn:Hp;
      [|injection Hs as <-; exact Hw].
    destruct (TimeTracker.resume (_tracker w) (tracker_now r))
      as [b tr evs|] eqn:Hres; [|discriminate].
    injection Hs as <-. intros _.
    unfold start_capture; simpl.
    destruct (screenshots_enabled w); simpl;
      eapply resume_paused_running;
      [apply is_paused_true; exact Hp | exact Hres
      |apply is_paused_true; exact Hp | exact Hres].
  - (* _on_start_from_tray *)
    unfold _on_start_from_tray, _on_start, resume_tracking in Hs.
    destruct (TimeTracker.is_paused (_tracker w)) eqn:Hp.
    + destruct (TimeTracker.resume (_tracker w) (tracker_now r))
        as [b tr evs|] eqn:Hres; [|discriminate].
      injection Hs as <-. intros _.
      unfold start_capture; simpl.
      destruct (screenshots_enabled w); simpl;
        eapply resume_paused_running;
        [apply is_paused_true; exact Hp | exact Hres
        |apply is_paused_true; exact Hp | exact Hres].
    + destruct (TimeTracker.is_stopped (_tracker w));
        injection Hs as <-; exact Hw.
  - (* _on_pause *)
    eapply on_pause_follows; eassumption.
  - (* _on_stop *)
    unfold _on_stop in Hs.
    destruct (TimeTracker.is_stopped (_tracker w));
      [injection Hs as <-; exact Hw|].
    destruct (TimeTracker.stop _ (tracker_now r) EmptyString)
      as [res tr evs|]; [|discriminate].
    injection Hs as <-. unfold capture_follows_tracker; simpl.
    unfold ScreenshotCapture.stop.
    destruct (ScreenshotCapture._is_running (_screenshot_capture w)) eqn:Hr;
      simpl; congruence.
  - (* _on_settings *)
    injection Hs as <-. exact Hw.
  - (* input *)
    injection Hs as <-. exact Hw.
  - (* monitor tick *)
    destruct (ActivityMonitor._on_check_timer (_activity_monitor w) m)
      as [mon sigs|]; [|discriminate].
    eapply on_monitor_signals_follow; [|exact Hs]. exact Hw.
  - (* tracker tick *)
    injection Hs as <-. unfold capture_follows_tracker; simpl.
    unfold TimeTracker._on_timer_tick.
    destruct (TimeTracker._start_time (_tracker w)); simpl; exact Hw.
  - (* capture timers *)
    destruct (ScreenshotCapture.deliver (_screenshot_capture w) which e)
      as [[sc evs]|] eqn:Hd; [|discriminate].
    injection Hs as <-. unfold capture_follows_tracker; simpl.
    rewrite (deliver_keeps_running _ _ _ _ _ Hd). exact Hw.
Qed.

(** Whatever happens in the window, the screenshot scheduler runs only
    while the tracker is RUNNING: no screenshot is scheduled for a paused
    or stopped tracker. *)
Theorem capture_only_while_tracking
    (db : Database.DatabaseManager) (dir : string)
    (interval_ quality threshold : Z) (enabled : bool)
    (now_ now1 now2 : datetime) (second : Z)
    (acts : list Action) (w0 w : t) :
  init db dir interval_ quality threshold enabled now_ now1 now2 second
    = Some w0 ->
  steps w0 acts = Some w ->
  capture_follows_tracker w.
Proof.
  intros Hinit Hsteps.
  assert (H0 : capture_follows_tracker w0).
  { unfold init in Hinit.
    destruct (TimeTracker.init db now_) as [u tr evs|]; [|discriminate].
    injection Hinit as <-. unfold capture_follows_tracker; simpl.
    discriminate. }
  clear Hinit. revert w0 H0 Hsteps.
  induction acts as [|a acts IH]; simpl; intros w0 H0 Hsteps.
  - injection Hsteps as <-. exact H0.
  - destruct (step w0 a) as [w1|] eqn:H1; [|discriminate].
    apply (IH w1); [eapply step_follows; eassumption | exact Hsteps].
Qed.


Lemma capture_only_while_tracking_witness :
  exists w,
    steps example_window
          [TaskStart 7 (example_times 1); Pause (example_times 30);
           StartFromTray (example_times 40);
           CaptureTimeout ScreenshotCapture.CaptureTimer
             (ScreenshotCapture.example_env 640 "Editor" None);
           Stop (example_times 700)]
      = Some w
    /\ capture_follows_tracker w.
Proof.
  eexists. split; [reflexivity|].
  apply (capture_only_while_tracking
           (Database.mkDb [] 0) "shots" 600 70 300 true 0 0 0 0
           [TaskStart 7 (example_times 1); Pause (example_times 30);
            StartFromTray (example_times 40);
            CaptureTimeout ScreenshotCapture.CaptureTimer
              (ScreenshotCapture.example_env 640 "Editor" None);
            Stop (example_times 700)]
           example_window _ eq_refl eq_refl).
Defined.

(** The idle signal that reaches the threshold, on a detector that has
    not notified: a RUNNING tracker is paused at that moment and the
    screenshot scheduler is stopped; a tracker that is not RUNNING is
    left alone.  Either way the detector has now notified. *)
Theorem idle_threshold_pauses_tracking (w : t) (r : Readings) (n : Z) :
  IdleDetector._is_enabled (_idle_detector w) = true ->
  IdleDetector._was_notified (_idle_detector w) = false ->
  IdleDetector._threshold_seconds (_idle_detector w) <= n ->
  let notified :=
    IdleDetector.mk (IdleDetector._threshold_seconds (_idle_detector w))
                    true true true in
  (TimeTracker._state (_tracker w) = TimeTracker.RUNNING ->
   exists tr,
     on_monitor_signals w r [ActivityMonitor.idle_detected n] =
       Some (mk tr (_activity_monitor w)
                (ScreenshotCapture.stop (_screenshot_capture w))
                notified (screenshots_enabled w)) /\
     TimeTracker._state tr = TimeTracker.PAUSED /\
     TimeTracker._pause_time tr = Some (tracker_now r) /\
     TimeTracker._timer_active tr = false /\
     TimeTracker._start_time tr = TimeTracker._start_time (_tracker w) /\
     TimeTracker._current_entry tr = TimeTracker._current_entry (_tracker w) /\
     ScreenshotCapture._is_running
       (ScreenshotCapture.stop (_screenshot_capture w)) = false) /\
  (TimeTracker._state (_tracker w) <> TimeTracker.RUNNING ->
   on_monitor_signals w r [ActivityMonitor.idle_detected n] =
     Some (with_detector w notified)).
Proof.
  intros Hen Hnot Hge.
  assert (Hfire : IdleDetector.on_idle_detected (_idle_detector w) n =
                  (IdleDetector.mk
                     (IdleDetector._threshold_seconds (_idle_detector w))
                     true true true,
                   [IdleDetector.idle_threshold_reached])).
  { unfold IdleDetector.on_idle_detected. rewrite Hen, Hnot; simpl.
    destruct (Z.leb_spec (IdleDetector._threshold_seconds (_idle_detector w))
                         n); [reflexivity | lia]. }
  simpl. split.
  - intro Hrun. eexists. rewrite Hfire. simpl.
    unfold _on_idle_threshold, TimeTracker.is_running; simpl.
    rewrite Hrun; simpl.
    unfold _on_pause, TimeTracker.pause; simpl. rewrite Hrun; simpl.
    split; [reflexivity|]. simpl. repeat split.
    unfold ScreenshotCapture.stop.
    destruct (ScreenshotCapture._is_running (_screenshot_capture w)) eqn:Hr;
      simpl; [reflexivity | exact Hr].
  - intro Hrun. rewrite Hfire. simpl.
    unfold _on_idle_threshold, TimeTracker.is_running; simpl.
    destruct (TimeTracker._state (_tracker w)); simpl;
      [reflexivity | congruence | reflexivity].
Qed.


Lemma idle_threshold_pauses_tracking_witness :
  exists tr,
    on_monitor_signals example_tracking (example_times 400)
                       [ActivityMonitor.idle_detected 300] =
      Some (mk tr (_activity_monitor example_tracking)
               (ScreenshotCapture.stop (_screenshot_capture example_tracking))
               (IdleDetector.mk 300 true true true)
               (screenshots_enabled example_tracking)) /\
    TimeTracker._state tr = TimeTracker.PAUSED /\
    TimeTracker._pause_time tr = Some (tracker_now (example_times 400)) /\
    TimeTracker._timer_active tr = false /\
    TimeTracker._start_time tr
      = TimeTracker._start_time (_tracker example_tracking) /\
    TimeTracker._current_entry tr
      = TimeTracker._current_entry (_tracker example_tracking) /\
    ScreenshotCapture._is_running
      (ScreenshotCapture.stop (_screenshot_capture example_tracking)) = false.
Proof.
  apply (idle_threshold_pauses_tracking example_tracking
           (example_times 400) 300).
  - reflexivity.
  - reflexivity.
  - simpl; lia.
  - reflexivity.
Defined.

Lemma tick_idle_positive (m m' : ActivityMonitor.t)
    (r : ActivityMonitor.Readings) (sigs : list ActivityMonitor.Signal) :
  ActivityMonitor._on_check_timer m r = ActivityMonitor.Ok m' sigs ->
  forall n, In (ActivityMonitor.idle_detected n) sigs -> 0 < n.
Proof.
  assert (Hidle : forall m0 n,
             In (ActivityMonitor.idle_detected n)
                (ActivityMonitor.emit_idle m0) -> 0 < n).
  { intros m0 n. unfold ActivityMonitor.emit_idle.
    destruct (Z.ltb_spec 0 (ActivityMonitor._continuous_idle_seconds m0));
      simpl; [|tauto].
    intros [Heq|[]]. injection Heq as <-. assumption. }
  unfold ActivityMonitor._on_check_timer.
  destruct (ActivityMonitor._interval_start_time _) as [t0|].
  - destruct (total_seconds_geb _ t0 _).
    + destruct (_ =? 0); [discriminate|].
      intro H; injection H as _ <-. intros n [Habs|Hin];
        [discriminate | eapply Hidle; exact Hin].
    + intro H; injection H as _ <-. apply Hidle.
  - intro H; injection H as _ <-. apply Hidle.
Qed.

Lemma notified_monitor_signals (sigs : list ActivityMonitor.Signal)
    (w w' : t) (r : Readings) :
  IdleDetector._was_notified (_idle_detector w) = true ->
  (forall n, In (ActivityMonitor.idle_detected n) sigs -> 0 < n) ->
  on_monitor_signals w r sigs = Some w' ->
  IdleDetector._was_notified (_idle_detector w') = true /\
  TimeTracker._state (_tracker w') = TimeTracker._state (_tracker w) /\
  _screenshot_capture w' =
    List.fold_left
      (fun sc ev =>
         match ev with
         | ActivityMonitor.activity_updated p =>
             ScreenshotCapture.set_activity_percentage sc p
         | ActivityMonitor.idle_detected _ => sc
         end) sigs (_screenshot_capture w).
Proof.
  revert w. induction sigs as [|[p|n] sigs IH]; simpl; intros w Hn Hpos H.
  - injection H as <-. auto.
  - apply IH in H.
    + destruct H as [H1 [H2 H3]]. split; [exact H1|].
      split; [|rewrite H3; unfold _on_activity_updated; simpl;
               destruct (TimeTracker.is_running (_tracker w)); reflexivity].
      rewrite H2. unfold _on_activity_updated; simpl.
      destruct (TimeTracker.is_running (_tracker w)); reflexivity.
    + unfold _on_activity_updated; simpl.
      destruct (TimeTracker.is_running (_tracker w)); exact Hn.
    + intros k Hk. apply Hpos. right. exact Hk.
  - assert (Hsilent : IdleDetector.on_idle_detected (_idle_detector w) n
                      = (_idle_detector w, [])).
    { apply silent_notified; [exact Hn|].
      specialize (Hpos n (or_introl eq_refl)). lia. }
    rewrite Hsilent in H. simpl in H.
    destruct w as [tr mon sc d en]; simpl in *.
    apply IH in H; [exact H | exact Hn|].
    intros k Hk. apply Hpos. right. exact Hk.
Qed.

Lemma step_keeps_notified (w w' : t) (a : Action) :
  IdleDetector._was_notified (_idle_detector w) = true ->
  step w a = Some w' ->
  IdleDetector._was_notified (_idle_detector w') = true /\
  (background a ->
   TimeTracker._state (_tracker w') = TimeTracker._state (_tracker w)).
Proof.
  intros Hn Hs. destruct a; simpl in Hs; simpl background.
  - unfold _on_task_start_from_list in Hs.
    destruct (_ || _); [injection Hs as <-; tauto|].
    destruct (TimeTracker.start _ _ _) as [[|] tr evs|];
      [| |discriminate]; injection Hs as <-; simpl;
      [unfold start_capture; simpl; destruct (screenshots_enabled w)|];
      simpl; tauto.
  - unfold _on_start, resume_tracking in Hs.
    destruct (TimeTracker.is_paused _); [|injection Hs as <-; tauto].
    destruct (TimeTracker.resume _ _) as [b tr evs|]; [|discriminate].
    injection Hs as <-. unfold start_capture; simpl.
    destruct (screenshots_enabled w); simpl; tauto.
  - unfold _on_start_from_tray, _on_start, resume_tracking in Hs.
    destruct (TimeTracker.is_paused _).
    + destruct (TimeTracker.resume _ _) as [b tr evs|]; [|discriminate].
      injection Hs as <-. unfold start_capture; simpl.
      destruct (screenshots_enabled w); simpl; tauto.
    + destruct (TimeTracker.is_stopped _); injection Hs as <-; tauto.
  - unfold _on_pause in Hs.
    destruct (TimeTracker.pause _ _) as [[|] tr evs|]; [| |discriminate];
      injection Hs as <-; simpl; tauto.
  - unfold _on_stop in Hs.
    destruct (TimeTracker.is_stopped _); [injection Hs as <-; tauto|].
    destruct (TimeTracker.stop _ _ _) as [res tr evs|]; [|discriminate].
    injection Hs as <-; simpl; tauto.
  - injection Hs as <-; simpl; tauto.
  - injection Hs as <-; simpl; tauto.
  - destruct (ActivityMonitor._on_check_timer (_activity_monitor w) m)
      as [mon sigs|] eqn:Htick; [|discriminate].
    apply notified_monitor_signals in Hs;
      [|exact Hn | eapply tick_idle_positive; exact Htick].
    simpl in Hs. tauto.
  - injection Hs as <-; simpl. split; [exact Hn|]. intros _.
    unfold TimeTracker._on_timer_tick.
    destruct (TimeTracker._start_time (_tracker w)); reflexivity.
  - destruct (ScreenshotCapture.deliver _ which e) as [[sc evs]|];
      [|discriminate].
    injection Hs as <-; simpl; tauto.
Qed.

(** Nothing in the window clears the detector's notification (no slot is
    connected to [activity_resumed], and the monitor never sends 0 idle
    seconds).  So once the detector has notified it stays notified
    through everything that happens, and however long the user is idle
    afterwards the timers do not change the tracker's state: the
    idle threshold pauses tracking at most once. *)
Theorem idle_pauses_at_most_once (w w' : t) (acts : list Action) :
  IdleDetector._was_notified (_idle_detector w) = true ->
  steps w acts = Some w' ->
  IdleDetector._was_notified (_idle_detector w') = true /\
  (Forall background acts ->
   TimeTracker._state (_tracker w') = TimeTracker._state (_tracker w)).
Proof.
  revert w. induction acts as [|a acts IH]; simpl; intros w Hn Hs.
  - injection Hs as <-. auto.
  - destruct (step w a) as [w1|] eqn:H1; [|discriminate].
    destruct (step_keeps_notified w w1 a Hn H1) as [Hn1 Hst1].
    destruct (IH w1 Hn1 Hs) as [Hn' Hst'].
    split; [exact Hn'|]. intro Hall.
    inversion Hall as [|a0 acts0 Ha Hacts]; subst.
    rewrite (Hst' Hacts). apply Hst1. exact Ha.
Qed.


Lemma idle_pauses_at_most_once_witness :
  exists w',
    steps example_resumed example_idle_ticks = Some w' /\
    IdleDetector._was_notified (_idle_detector w') = true /\
    (Forall background example_idle_ticks ->
     TimeTracker._state (_tracker w')
     = TimeTracker._state (_tracker example_resumed)).
Proof.
  eexists. split; [vm_compute; reflexivity|].
  apply (idle_pauses_at_most_once example_resumed _ example_idle_ticks).
  - reflexivity.
  - vm_compute; reflexivity.
Defined.

(** The resumed tracker of the example is RUNNING, and stays so through
    the ten idle minutes. *)
Example idle_again_example :
  TimeTracker._state (_tracker example_resumed) = TimeTracker.RUNNING /\
  option_map (fun w => TimeTracker._state (_tracker w))
             (steps example_resumed example_idle_ticks)
  = Some TimeTracker.RUNNING.
Proof. split; vm_compute; reflexivity. Qed.

End WindowProperties.

(** ** The table and the tracker *)

Section TrackerDatabase.

Import Clock Database TimeTracker.








End TrackerDatabase.
